(** * Mol-Bhav storefront: the negotiation store and its components

    A shallow embedding of the TypeScript front-end:
    - [types]                         (Product, NegotiationResponse, ChatMessage, Language)
    - [lib/api.ts]                    (request builders around [fetch])
    - [stores/negotiation.ts]         (the zustand store and its actions)
    - [components/negotiation/*.tsx]  (FairnessMeter, PriceInput, DigitalFlounce,
                                       NegotiationDrawer) and [LanguageToggle].

    JavaScript [number]s are IEEE-754 binary64 values, so they are modelled by
    Rocq's primitive floats.  [async] functions are split at their [await]:
    the part before it, and one continuation per way the promise settles. *)

From Stdlib Require Import ZArith List String Ascii Bool Floats Lia.
From stdpp Require Import gmap strings.
Import ListNotations.

Set Warnings "-inexact-float,-register-all".
Open Scope string_scope.

(** ** JavaScript numbers *)

Abbreviation number := float (only parsing).

(** [isNaN(x)] on a value that already is a number. *)
Definition isNaN (x : number) : bool := PrimFloat.is_nan x.

(** Truthiness of a number: [0], [-0] and [NaN] are falsy. *)
Definition truthy_number (x : number) : bool :=
  negb (PrimFloat.is_zero x || PrimFloat.is_nan x).

(** Truthiness of a string: only the empty string is falsy. *)
Definition truthy_string (s : string) : bool :=
  match s with EmptyString => false | String _ _ => true end.

(** [Math.max(a, b)]: NaN if either is NaN; [+0] is larger than [-0]. *)
Definition Math_max (a b : number) : number :=
  if PrimFloat.is_nan a || PrimFloat.is_nan b then PrimFloat.nan
  else if (a <? b)%float then b
  else if (b <? a)%float then a
  else if PrimFloat.get_sign a then b else a.

(** [Math.min(a, b)]: NaN if either is NaN; [-0] is smaller than [+0]. *)
Definition Math_min (a b : number) : number :=
  if PrimFloat.is_nan a || PrimFloat.is_nan b then PrimFloat.nan
  else if (a <? b)%float then a
  else if (b <? a)%float then b
  else if PrimFloat.get_sign a then a else b.

(** The binary64 value nearest to the integer [n] (exact below 2^53). *)
Definition number_of_Z (n : Z) : number :=
  SF2Prim (binary_normalize prec emax n 0 false).

(** [Math.round(x)]: the integer nearest to [x], ties towards +infinity,
    computed on the exact value of [x]; NaN, the infinities and the zeros are
    returned as they are, and a result of zero keeps the sign of [x]. *)
Definition Math_round (x : number) : number :=
  match Prim2SF x with
  | S754_finite s m e =>
      if (0 <=? e)%Z then x
      else
        let den := (2 ^ (- e))%Z in
        let num := if s then Z.neg m else Z.pos m in
        let n := ((2 * num + den) / (2 * den))%Z in
        if (n =? 0)%Z then (if s then PrimFloat.neg_zero else PrimFloat.zero)
        else number_of_Z n
  | _ => x
  end.

(** ** JavaScript strings *)

Definition byte_string (bytes : list nat) : string :=
  fold_right (fun b s => String (ascii_of_nat b) s) EmptyString bytes.

(** WhiteSpace and LineTerminator code points, as UTF-8 byte sequences:
    TAB, LF, VT, FF, CR, SP, NBSP, U+1680, U+2000..U+200A, LS, PS, U+202F,
    U+205F, U+3000 and the byte-order mark. *)
Definition white_space : list string :=
  map byte_string
    ([ [9]; [10]; [11]; [12]; [13]; [32]; [194; 160]; [225; 154; 128] ]
     ++ map (fun k => [226; 128; k]) [128; 129; 130; 131; 132; 133; 134; 135; 136; 137; 138]
     ++ [ [226; 128; 168]; [226; 128; 169]; [226; 128; 175]; [226; 129; 159];
          [227; 128; 128]; [239; 187; 191] ])%list.

Fixpoint strip_prefix (p s : string) : option string :=
  match p, s with
  | EmptyString, _ => Some s
  | String a p', String b s' => if Ascii.eqb a b then strip_prefix p' s' else None
  | String _ _, EmptyString => None
  end.

(** Drop one leading white-space character, if there is one. *)
Definition strip_one_space (s : string) : option string :=
  fold_right (fun w acc => match strip_prefix w s with Some r => Some r | None => acc end)
             None white_space.

Fixpoint trimStart_fuel (fuel : nat) (s : string) : string :=
  match fuel with
  | O => s
  | S k => match strip_one_space s with
           | Some r => trimStart_fuel k r
           | None => s
           end
  end.

Definition trimStart (s : string) : string := trimStart_fuel (String.length s) s.

Definition all_white_space (s : string) : bool :=
  match trimStart s with EmptyString => true | String _ _ => false end.

Fixpoint trimEnd (s : string) : string :=
  match s with
  | EmptyString => EmptyString
  | String c r => if all_white_space s then EmptyString else String c (trimEnd r)
  end.

(** [s.trim()] *)
Definition trim (s : string) : string := trimEnd (trimStart s).

(** [s.replace(/,/g, "")] *)
Fixpoint remove_commas (s : string) : string :=
  match s with
  | EmptyString => EmptyString
  | String c r => if Ascii.eqb c "," then remove_commas r else String c (remove_commas r)
  end.

(** *** parseFloat *)

Definition digit_of (c : ascii) : option Z :=
  let n := Z.of_nat (nat_of_ascii c) in
  if ((48 <=? n) && (n <=? 57))%Z then Some (n - 48)%Z else None.

(** Reads the longest run of decimal digits: their value on top of [acc],
    how many there were, and the rest of the string. *)
Fixpoint read_digits (s : string) (acc : Z) (count : Z) : Z * Z * string :=
  match s with
  | EmptyString => (acc, count, s)
  | String c r =>
      match digit_of c with
      | Some d => read_digits r (10 * acc + d)%Z (count + 1)%Z
      | None => (acc, count, s)
      end
  end.

(** ExponentPart: [e] or [E], an optional sign, and at least one digit;
    when it is not all there the literal ends before it. *)
Definition read_exponent (s : string) : Z :=
  match s with
  | String c r =>
      if Ascii.eqb c "e" || Ascii.eqb c "E" then
        let '(neg, r') :=
          match r with
          | String "+" r1 => (false, r1)
          | String "-" r1 => (true, r1)
          | _ => (false, r)
          end in
        let '(v, count, _) := read_digits r' 0%Z 0%Z in
        if (count =? 0)%Z then 0%Z else if neg then (- v)%Z else v
      else 0%Z
  | EmptyString => 0%Z
  end.

(** The binary64 value nearest (ties to even) to [m * 10^e], for [m >= 0]. *)
Definition number_of_decimal (m e : Z) : number :=
  match m with
  | Z0 => PrimFloat.zero
  | _ =>
      if (0 <=? e)%Z then number_of_Z (m * 10 ^ e)
      else
        let '(q, e', l) := SFdiv_core_binary prec emax m 0 (10 ^ (- e)) 0 in
        SF2Prim (binary_round_aux prec emax false q e' l)
  end.

(** [parseFloat(s)]: leading white space is skipped, then the longest prefix
    that is a StrDecimalLiteral is converted; NaN when there is none. *)
Definition parseFloat (s : string) : number :=
  let t := trimStart s in
  let '(neg, t1) :=
    match t with
    | String "+" r => (false, r)
    | String "-" r => (true, r)
    | _ => (false, t)
    end in
  let signed (x : number) : number := if neg then (- x)%float else x in
  match strip_prefix "Infinity" t1 with
  | Some _ => signed PrimFloat.infinity
  | None =>
      let '(int_value, int_count, t2) := read_digits t1 0%Z 0%Z in
      let '(mantissa, frac_count, t3) :=
        match t2 with
        | String "." r => read_digits r int_value 0%Z
        | _ => (int_value, 0%Z, t2)
        end in
      if ((int_count =? 0) && (frac_count =? 0))%Z then PrimFloat.nan
      else signed (number_of_decimal mantissa (read_exponent t3 - frac_count))
  end.

(** ** types *)

(** Values of type [unknown] that arrive as JSON. *)
Inductive JSON :=
| JNull
| JBool (b : bool)
| JNumber (x : number)
| JString (s : string)
| JArray (items : list JSON)
| JObject (fields : list (string * JSON)).

(** [JSON.stringify] writes a number that is not finite as [null], and
    minus zero as [0]. *)
Definition JSON_of_number (x : number) : JSON :=
  if PrimFloat.is_finite x
  then (if (x =? 0)%float then JNumber 0%float else JNumber x)
  else JNull.

Inductive NegotiationState :=
| idle | proposing | responding | agreed | broken | timed_out.

Module Product.
Record t := mk {
  id : string;
  name : string;
  category : string;
  anchor_price : number;
  cost_price : number;
  min_margin : number;
  target_margin : number;
  metadata : gmap string JSON
}.
End Product.

Module NegotiationResponse.
Record t := mk {
  session_id : string;
  session_token : string;
  message : string;
  current_price : number;
  anchor_price : number;
  state : NegotiationState;
  tactic : string;
  sentiment : string;
  round : number;
  max_rounds : number;
  quote_ttl_seconds : number;
  agreed_price : option number;
  metadata : gmap string JSON
}.
End NegotiationResponse.

Inductive Actor := buyer | seller.

Inductive Status := sending | sent | error.

(** The text of a chat bubble.  [Rupees p] stands for the template
    [`₹${p.toLocaleString("en-IN")}`]: the locale formatting is left to the
    browser and kept symbolic. *)
Inductive Text :=
| Plain (s : string)
| Rupees (p : number).

Module ChatMessage.
Record t := mk {
  id : string;
  actor : Actor;
  text : Text;
  price : number;
  tactic : option string;
  metadata : option (gmap string JSON);
  timestamp : Z;
  status : Status
}.

(** [{ ...m, status: st }] *)
Definition with_status (st : Status) (m : t) : t :=
  mk (id m) (actor m) (text m) (price m) (tactic m) (metadata m) (timestamp m) st.
End ChatMessage.

Inductive Language := en | hi | ta | te | mr.

(** The string a [Language] is at run time. *)
Definition Language_code (l : Language) : string :=
  match l with
  | en => "en" | hi => "hi" | ta => "ta" | te => "te" | mr => "mr"
  end.

(** [LANGUAGE_LABELS], in the order of its keys. *)
Definition LANGUAGE_LABELS : list (Language * string) :=
  [ (en, "English"); (hi, "हिन्दी"); (ta, "தமிழ்"); (te, "తెలుగు"); (mr, "मराठी") ].

(** ** lib/api *)

Record RequestInit := {
  method : option string;
  headers : gmap string string;
  body : option JSON
}.

(** The two arguments of a [fetch] call. *)
Record Request := {
  url : string;
  init : RequestInit
}.

Record ApiError := {
  error_message : string;
  error_status : option Z
}.

(** How the promise of an API call settles. *)
Inductive Settled (T : Type) :=
| Resolved (value : T)
| Rejected (err : ApiError).
Arguments Resolved {T} value.
Arguments Rejected {T} err.

Definition hex_digit (n : nat) : ascii :=
  ascii_of_nat (if (n <? 10)%nat then 48 + n else 55 + n).

(** Characters [encodeURIComponent] leaves alone: letters, digits and
    [- _ . ! ~ * ' ( )]. *)
Definition uri_unreserved (c : ascii) : bool :=
  let n := nat_of_ascii c in
  ((48 <=? n) && (n <=? 57) || (65 <=? n) && (n <=? 90) || (97 <=? n) && (n <=? 122)
   || existsb (Nat.eqb n) [45; 95; 46; 33; 126; 42; 39; 40; 41])%nat.

(** [encodeURIComponent(s)] on the UTF-8 bytes of [s]. *)
Fixpoint encodeURIComponent (s : string) : string :=
  match s with
  | EmptyString => EmptyString
  | String c r =>
      if uri_unreserved c then String c (encodeURIComponent r)
      else
        let n := nat_of_ascii c in
        String "%" (String (hex_digit (n / 16)) (String (hex_digit (n mod 16))
          (encodeURIComponent r)))
  end.

Module api.
Section WithBase.
(** [process.env.NEXT_PUBLIC_API_URL || ""] *)
Variable API_BASE : string.

(** The [fetch] call of [apiFetch]: the JSON content type first, then the
    caller's headers, which win on a clash. *)
Definition apiFetch (path : string) (options : RequestInit) : Request :=
  {| url := API_BASE ++ path;
     init := {| method := method options;
                headers := headers options ∪ {[ "Content-Type" := "application/json" ]};
                body := body options |} |}.

Definition startNegotiation (productId buyerName language : string) : Request :=
  apiFetch "/api/v1/negotiate/start"
    {| method := Some "POST";
       headers := ∅;
       body := Some (JObject [ ("product_id", JString productId);
                               ("buyer_name", JString buyerName);
                               ("language", JString language) ]) |}.

Definition sendOffer (sessionId sessionToken : string) (price : number)
    (message language : string) : Request :=
  apiFetch ("/api/v1/negotiate/" ++ encodeURIComponent sessionId ++ "/offer")
    {| method := Some "POST";
       headers := {[ "Content-Type" := "application/json";
                     "X-Session-Token" := sessionToken ]};
       body := Some (JObject [ ("price", JSON_of_number price);
                               ("message", JString message);
                               ("language", JString language) ]) |}.

Definition getStatus (sessionId sessionToken : string) : Request :=
  apiFetch ("/api/v1/negotiate/" ++ encodeURIComponent sessionId ++ "/status")
    {| method := None;
       headers := {[ "X-Session-Token" := sessionToken ]};
       body := None |}.
End WithBase.
End api.

(** A call the store makes into [lib/api], with its arguments. *)
Inductive ApiCall :=
| call_startNegotiation (productId buyerName language : string)
| call_sendOffer (sessionId sessionToken : string) (price : number) (message language : string).

(** The request a call puts on the wire. *)
Definition request_of (API_BASE : string) (c : ApiCall) : Request :=
  match c with
  | call_startNegotiation p b l => api.startNegotiation API_BASE p b l
  | call_sendOffer i t p m l => api.sendOffer API_BASE i t p m l
  end.

(** ** stores/negotiation *)

Record NegotiationStore := {
  (* session *)
  sessionId : option string;
  sessionToken : option string;
  productId : option string;
  productName : string;
  anchorPrice : number;
  currentPrice : number;
  agreedPrice : option number;
  state : option NegotiationState;
  tactic : string;
  round : number;
  maxRounds : number;
  (* chat *)
  messages : list ChatMessage.t;
  isLoading : bool;
  (* prefs *)
  language : string;
  flounceUsed : bool;
  drawerOpen : bool
}.

(** What [generateId()] and [new Date()] return at one place of a run. *)
Record Fresh := {
  fresh_id : string;
  fresh_now : Z
}.

(** How an [async] action ends. *)
Inductive Completion :=
| Returned
| Threw (err : ApiError).

(** [getPersistedLanguage()].  [window] is [None] while rendering on the
    server; in the browser it holds the contents of [localStorage]. *)
Definition getPersistedLanguage (window : option (gmap string string)) : string :=
  match window with
  | None => "en"
  | Some localStorage =>
      match localStorage !! "mol-bhav-lang" with
      | Some v => if truthy_string v then v else "en"
      | None => "en"
      end
  end.

(** The state the store is created with. *)
Definition initial_store (window : option (gmap string string)) : NegotiationStore :=
  {| sessionId := None; sessionToken := None; productId := None; productName := "";
     anchorPrice := 0%float; currentPrice := 0%float; agreedPrice := None; state := None;
     tactic := ""; round := 0%float; maxRounds := 15%float;
     messages := []; isLoading := false;
     language := getPersistedLanguage window; flounceUsed := false; drawerOpen := false |}.

Definition setDrawerOpen (open : bool) (s : NegotiationStore) : NegotiationStore :=
  {| sessionId := sessionId s; sessionToken := sessionToken s; productId := productId s;
     productName := productName s; anchorPrice := anchorPrice s;
     currentPrice := currentPrice s; agreedPrice := agreedPrice s; state := state s;
     tactic := tactic s; round := round s; maxRounds := maxRounds s;
     messages := messages s; isLoading := isLoading s;
     language := language s; flounceUsed := flounceUsed s; drawerOpen := open |}.

Definition setLanguage (lang : Language) (window : option (gmap string string))
    (s : NegotiationStore) : option (gmap string string) * NegotiationStore :=
  (match window with
   | Some localStorage => Some (<[ "mol-bhav-lang" := Language_code lang ]> localStorage)
   | None => None
   end,
   {| sessionId := sessionId s; sessionToken := sessionToken s; productId := productId s;
      productName := productName s; anchorPrice := anchorPrice s;
      currentPrice := currentPrice s; agreedPrice := agreedPrice s; state := state s;
      tactic := tactic s; round := round s; maxRounds := maxRounds s;
      messages := messages s; isLoading := isLoading s;
      language := Language_code lang; flounceUsed := flounceUsed s;
      drawerOpen := drawerOpen s |}).

(** [useNegotiationStore.setState({ isLoading: b })] *)
Definition set_isLoading (b : bool) (s : NegotiationStore) : NegotiationStore :=
  {| sessionId := sessionId s; sessionToken := sessionToken s; productId := productId s;
     productName := productName s; anchorPrice := anchorPrice s;
     currentPrice := currentPrice s; agreedPrice := agreedPrice s; state := state s;
     tactic := tactic s; round := round s; maxRounds := maxRounds s;
     messages := messages s; isLoading := b;
     language := language s; flounceUsed := flounceUsed s; drawerOpen := drawerOpen s |}.

(** [useNegotiationStore.setState({ flounceUsed: b })] *)
Definition set_flounceUsed (b : bool) (s : NegotiationStore) : NegotiationStore :=
  {| sessionId := sessionId s; sessionToken := sessionToken s; productId := productId s;
     productName := productName s; anchorPrice := anchorPrice s;
     currentPrice := currentPrice s; agreedPrice := agreedPrice s; state := state s;
     tactic := tactic s; round := round s; maxRounds := maxRounds s;
     messages := messages s; isLoading := isLoading s;
     language := language s; flounceUsed := b; drawerOpen := drawerOpen s |}.

(** [set({ messages: ms, isLoading: b })] *)
Definition set_chat (ms : list ChatMessage.t) (b : bool) (s : NegotiationStore)
    : NegotiationStore :=
  {| sessionId := sessionId s; sessionToken := sessionToken s; productId := productId s;
     productName := productName s; anchorPrice := anchorPrice s;
     currentPrice := currentPrice s; agreedPrice := agreedPrice s; state := state s;
     tactic := tactic s; round := round s; maxRounds := maxRounds s;
     messages := ms; isLoading := b;
     language := language s; flounceUsed := flounceUsed s; drawerOpen := drawerOpen s |}.

Definition reset (s : NegotiationStore) : NegotiationStore :=
  {| sessionId := None; sessionToken := None; productId := None; productName := "";
     anchorPrice := 0%float; currentPrice := 0%float; agreedPrice := None; state := None;
     tactic := ""; round := 0%float; maxRounds := 15%float;
     messages := []; isLoading := false;
     language := language s; flounceUsed := false; drawerOpen := false |}.

Definition _applyResponse (res : NegotiationResponse.t) (isStart : bool) (f : Fresh)
    (s : NegotiationStore) : NegotiationStore :=
  let sellerMsg :=
    ChatMessage.mk (fresh_id f) seller
      (Plain (NegotiationResponse.message res))
      (NegotiationResponse.current_price res)
      (Some (NegotiationResponse.tactic res))
      (Some (NegotiationResponse.metadata res))
      (fresh_now f) sent in
  {| sessionId := Some (NegotiationResponse.session_id res);
     sessionToken := if isStart then Some (NegotiationResponse.session_token res)
                     else sessionToken s;
     productId := productId s;
     productName := productName s;
     anchorPrice := if truthy_number (NegotiationResponse.anchor_price res)
                    then NegotiationResponse.anchor_price res else anchorPrice s;
     currentPrice := NegotiationResponse.current_price res;
     agreedPrice := NegotiationResponse.agreed_price res;
     state := Some (NegotiationResponse.state res);
     tactic := NegotiationResponse.tactic res;
     round := NegotiationResponse.round res;
     maxRounds := NegotiationResponse.max_rounds res;
     messages := messages s ++ [sellerMsg];
     isLoading := false;
     language := language s; flounceUsed := flounceUsed s; drawerOpen := drawerOpen s |}.

(** *** startSession *)

(** Up to the [await]: the store is prepared and the start call goes out. *)
Definition startSession_begin (productId' productName' : string) (s : NegotiationStore)
    : NegotiationStore * ApiCall :=
  let s1 :=
    {| sessionId := sessionId s; sessionToken := sessionToken s;
       productId := Some productId'; productName := productName';
       anchorPrice := anchorPrice s; currentPrice := currentPrice s;
       agreedPrice := None; state := None;
       tactic := tactic s; round := round s; maxRounds := maxRounds s;
       messages := []; isLoading := true;
       language := language s; flounceUsed := false; drawerOpen := drawerOpen s |} in
  (s1, call_startNegotiation productId' "" (language s1)).

(** After the [await]: the [try] body, or the [catch] that throws again. *)
Definition startSession_settle (reply : Settled NegotiationResponse.t) (f : Fresh)
    (s : NegotiationStore) : NegotiationStore * Completion :=
  match reply with
  | Resolved res => (_applyResponse res true f s, Returned)
  | Rejected err => (set_isLoading false s, Threw err)
  end.

Definition startSession (productId' productName' : string)
    (reply : Settled NegotiationResponse.t) (f : Fresh) (s : NegotiationStore)
    : NegotiationStore * list ApiCall * Completion :=
  let '(s1, call) := startSession_begin productId' productName' s in
  let '(s2, c) := startSession_settle reply f s1 in
  (s2, [call], c).

(** *** sendOffer *)

(** [m.id === id ? { ...m, status: st } : m] over the chat. *)
Definition mark_status (id : string) (st : Status) (ms : list ChatMessage.t)
    : list ChatMessage.t :=
  map (fun m => if String.eqb (ChatMessage.id m) id then ChatMessage.with_status st m else m) ms.

(** [!sessionId || !sessionToken] fails: both are set and not empty. *)
Definition session_credentials (s : NegotiationStore) : option (string * string) :=
  match sessionId s, sessionToken s with
  | Some i, Some t => if truthy_string i && truthy_string t then Some (i, t) else None
  | _, _ => None
  end.

(** Up to the [await]: nothing at all without a session; otherwise the
    buyer's bubble is appended as "sending" and the offer call goes out. *)
Definition sendOffer_begin (price : number) (message : string) (f : Fresh)
    (s : NegotiationStore) : option (NegotiationStore * ApiCall) :=
  match session_credentials s with
  | None => None
  | Some (i, t) =>
      let buyerMsg :=
        ChatMessage.mk (fresh_id f) buyer
          (if truthy_string message then Plain message else Rupees price)
          price None None (fresh_now f) sending in
      Some (set_chat (messages s ++ [buyerMsg]) true s,
            call_sendOffer i t price message (language s))
  end.

(** After the [await], for the bubble [id]: on success the bubble becomes
    "sent" and the response is applied; on failure loading stops, the bubble
    becomes "error" and the error is thrown again. *)
Definition sendOffer_settle (id : string) (reply : Settled NegotiationResponse.t)
    (f : Fresh) (s : NegotiationStore) : NegotiationStore * Completion :=
  match reply with
  | Resolved res =>
      (_applyResponse res false f (set_chat (mark_status id sent (messages s)) (isLoading s) s),
       Returned)
  | Rejected err =>
      (set_chat (mark_status id error (messages s)) false s, Threw err)
  end.

(** [sendOffer(price, message)] run to completion; [f] serves the buyer's
    bubble and [f'] the seller's. *)
Definition sendOffer (price : number) (message : string)
    (reply : Settled NegotiationResponse.t) (f f' : Fresh) (s : NegotiationStore)
    : NegotiationStore * list ApiCall * Completion :=
  match sendOffer_begin price message f s with
  | None => (s, [], Returned)
  | Some (s1, call) =>
      let '(s2, c) := sendOffer_settle (fresh_id f) reply f' s1 in
      (s2, [call], c)
  end.

(** ** components *)

(** What a handler does besides updating state. *)
Inductive Effect :=
| ApiRequest (c : ApiCall)
| ToastError (msg : string).

(** [formatPrice(p)]: the rupee amount [Intl.NumberFormat] prints for [p],
    kept symbolic. *)
Inductive PriceLabel :=
| INR (p : number).

Definition formatPrice (p : number) : PriceLabel := INR p.

Module FairnessMeter.
Record Zone := {
  label : string;
  color : string;
  from : number;
  to : number
}.

Definition ZONES : list Zone :=
  [ {| label := "Too Low"; color := "bg-red-500"; from := 0; to := 25 |};
    {| label := "Getting Warmer"; color := "bg-yellow-500"; from := 25; to := 55 |};
    {| label := "Fair Deal"; color := "bg-green-500"; from := 55; to := 85 |};
    {| label := "Shop Price"; color := "bg-blue-500"; from := 85; to := 100 |} ].

Record Props := {
  anchorPrice : number;
  visualFloorPercent : option number
}.

(** The default of the destructured prop: [visualFloorPercent = 0.6]. *)
Definition floorPercent (p : Props) : number :=
  match visualFloorPercent p with
  | Some v => v
  | None => 0.6%float
  end.

Definition visualFloor (p : Props) : number :=
  (anchorPrice p * floorPercent p)%float.

Definition range (p : Props) : number :=
  (anchorPrice p - visualFloor p)%float.

(** The position before it is clamped. *)
Definition position (p : Props) (s : NegotiationStore) : number :=
  (((currentPrice s - visualFloor p) / range p) * 100)%float.

Definition percentage (p : Props) (s : NegotiationStore) : number :=
  if (0 <? range p)%float
  then Math_max 0 (Math_min 100 (position p s))
  else 50%float.

(** [percentage >= z.from && percentage < z.to] *)
Definition in_zone (pct : number) (z : Zone) : bool :=
  (from z <=? pct)%float && (pct <? to z)%float.

(** [ZONES.find(...) || ZONES[0]] *)
Definition activeZone (p : Props) (s : NegotiationStore) : Zone :=
  match find (in_zone (percentage p s)) ZONES with
  | Some z => z
  | None => nth 0 ZONES {| label := ""; color := ""; from := 0; to := 0 |}
  end.

Inductive View :=
| Placeholder
| Meter (lower : PriceLabel) (zone : string) (upper : PriceLabel)
        (pointer : number) (current : PriceLabel).

Definition render (p : Props) (s : NegotiationStore) : View :=
  match state s with
  | None => Placeholder
  | Some _ =>
      Meter (formatPrice (visualFloor p)) (label (activeZone p s))
            (formatPrice (anchorPrice p)) (percentage p s)
            (formatPrice (currentPrice s))
  end.
End FairnessMeter.

Module PriceInput.
(** The three [useState] cells. *)
Record Local := {
  priceStr : string;
  message : string;
  showMessage : bool
}.

Definition isTerminal (s : NegotiationStore) : bool :=
  match state s with
  | Some agreed | Some broken | Some timed_out => true
  | _ => false
  end.

Definition disabled (s : NegotiationStore) : bool :=
  isLoading s || isTerminal s.

(** The [disabled] attribute of each control; the message field is only
    there while [showMessage] is on. *)
Record View := {
  message_input : option bool;
  toggle_button : bool;
  price_input : bool;
  submit_button : bool;
  closing_note : option string
}.

Definition render (l : Local) (s : NegotiationStore) : View :=
  {| message_input := if showMessage l then Some (disabled s) else None;
     toggle_button := disabled s;
     price_input := disabled s;
     submit_button := disabled s || negb (truthy_string (priceStr l));
     closing_note :=
       if isTerminal s then
         Some (match state s with
               | Some agreed => "Deal sealed! 🎉"
               | Some broken => "Negotiation ended."
               | _ => "Session timed out."
               end)
       else None |}.

Definition catch_toast (err : ApiError) : string :=
  match error_status err with
  | Some 429%Z => "Thoda ruko! Too fast 😅"
  | Some 410%Z | Some 404%Z => "Session expired. Start a new negotiation."
  | _ => if truthy_string (error_message err) then error_message err
         else "Something went wrong"
  end.

Definition handleSubmit (reply : Settled NegotiationResponse.t) (f f' : Fresh)
    (l : Local) (s : NegotiationStore) : Local * NegotiationStore * list Effect :=
  let price := parseFloat (remove_commas (priceStr l)) in
  if isNaN price || (price <=? 0)%float then
    (l, s, [ToastError "Enter a valid price"])
  else
    let '(s1, calls, c) := sendOffer price (trim (message l)) reply f f' s in
    match c with
    | Returned =>
        ({| priceStr := ""; message := ""; showMessage := false |}, s1,
         map ApiRequest calls)
    | Threw err => (l, s1, (map ApiRequest calls ++ [ToastError (catch_toast err)])%list)
    end.

(** What the buyer can do to the form. *)
Inductive Event :=
| TypePrice (v : string)
| TypeMessage (v : string)
| ClickToggle
| Submit.

(** The browser delivers an event only to a control that is rendered and
    not disabled; a form whose submit button is disabled is not submitted. *)
Definition dispatch (ev : Event) (reply : Settled NegotiationResponse.t) (f f' : Fresh)
    (l : Local) (s : NegotiationStore) : Local * NegotiationStore * list Effect :=
  let v := render l s in
  match ev with
  | TypePrice x =>
      if price_input v then (l, s, [])
      else ({| priceStr := x; message := message l; showMessage := showMessage l |}, s, [])
  | TypeMessage x =>
      match message_input v with
      | Some false =>
          ({| priceStr := priceStr l; message := x; showMessage := showMessage l |}, s, [])
      | _ => (l, s, [])
      end
  | ClickToggle =>
      if toggle_button v then (l, s, [])
      else ({| priceStr := priceStr l; message := message l;
               showMessage := negb (showMessage l) |}, s, [])
  | Submit =>
      if submit_button v then (l, s, []) else handleSubmit reply f f' l s
  end.
End PriceInput.

Module DigitalFlounce.
(** 5% below the current counter. *)
Definition walkAwayPrice (s : NegotiationStore) : number :=
  Math_round (currentPrice s * 0.95)%float.

(** [onClose] is the parent's callback, acting on the parent's state [d]. *)
Definition handleAcceptDeal {D : Type} (onClose : D -> D)
    (reply : Settled NegotiationResponse.t) (f f' : Fresh)
    (d : D) (s : NegotiationStore) : D * NegotiationStore * list Effect :=
  let '(s1, calls, c) :=
    sendOffer (walkAwayPrice s) "Walk-away deal accepted" reply f f' s in
  match c with
  | Returned => (onClose d, set_flounceUsed true s1, map ApiRequest calls)
  | Threw err =>
      (onClose d, s1,
       (map ApiRequest calls
         ++ [ToastError (if truthy_string (error_message err) then error_message err
                         else "Failed to accept deal")])%list)
  end.
End DigitalFlounce.

Module NegotiationDrawer.
Record Props := {
  open : bool;
  onOpenChange : bool -> NegotiationStore -> NegotiationStore;
  productName : string;
  anchorPrice : number
}.

Definition isActive (s : NegotiationStore) : bool :=
  match state s with
  | None | Some agreed | Some broken | Some timed_out => false
  | Some _ => true
  end.

(** The guard of the close intercept. *)
Definition intercepts (nextOpen : bool) (s : NegotiationStore) : bool :=
  negb nextOpen && isActive s && negb (flounceUsed s).

(** [showFlounce] is the drawer's [useState] cell. *)
Definition handleOpenChange (p : Props) (nextOpen : bool)
    (showFlounce : bool) (s : NegotiationStore) : bool * NegotiationStore :=
  if intercepts nextOpen s then (true, s)
  else
    let s1 := onOpenChange p nextOpen s in
    (showFlounce, if negb nextOpen then reset s1 else s1).

Definition handleFlounceClose (showFlounce : bool) : bool := false.

Definition handleFlouceLeave (p : Props) (showFlounce : bool) (s : NegotiationStore)
    : bool * NegotiationStore :=
  (false, reset (onOpenChange p false s)).

(** [<FairnessMeter anchorPrice={anchorPrice} />] *)
Definition meter_props (p : Props) : FairnessMeter.Props :=
  {| FairnessMeter.anchorPrice := anchorPrice p;
     FairnessMeter.visualFloorPercent := None |}.

(** The "Accept Deal!" button of the dialog the drawer mounts. *)
Definition acceptDeal (reply : Settled NegotiationResponse.t) (f f' : Fresh)
    (showFlounce : bool) (s : NegotiationStore) : bool * NegotiationStore * list Effect :=
  DigitalFlounce.handleAcceptDeal handleFlounceClose reply f f' showFlounce s.
End NegotiationDrawer.

Module ProductActions.
(** The drawer as the product page mounts it. *)
Definition drawer_props (product : Product.t) (s : NegotiationStore)
    : NegotiationDrawer.Props :=
  {| NegotiationDrawer.open := drawerOpen s;
     NegotiationDrawer.onOpenChange := setDrawerOpen;
     NegotiationDrawer.productName := Product.name product;
     NegotiationDrawer.anchorPrice := Product.anchor_price product |}.

Definition handleNegotiate (product : Product.t)
    (reply : Settled NegotiationResponse.t) (f : Fresh) (s : NegotiationStore)
    : NegotiationStore * list ApiCall * Completion :=
  startSession (Product.id product) (Product.name product) reply f (setDrawerOpen true s).
End ProductActions.

Module LanguageToggle.
(** The radio items: [Object.entries(LANGUAGE_LABELS)]. *)
Definition items : list (string * string) :=
  map (fun '(l, label) => (Language_code l, label)) LANGUAGE_LABELS.

(** The values the buyer can pick. *)
Definition selectable : list string := map fst items.

(** [onValueChange]: the picked value, cast to [Language], goes to the
    store; a value that is no language code does not occur. *)
Definition Language_of_code (v : string) : option Language :=
  find (fun l => String.eqb (Language_code l) v) (map fst LANGUAGE_LABELS).

Definition onValueChange (v : string) (window : option (gmap string string))
    (s : NegotiationStore) : option (gmap string string) * NegotiationStore :=
  match Language_of_code v with
  | Some l => setLanguage l window s
  | None => (window, s)
  end.
End LanguageToggle.

(** ** Runs of the store *)

(** The steps in which the store can change: each synchronous action, each
    half of an asynchronous one, and the [setState] the walk-away dialog
    makes after an accepted deal.  The halves may interleave freely. *)
Inductive Action :=
| ASetDrawerOpen (open : bool)
| ASetLanguage (lang : Language)
| AStartSession (productId productName : string)
| AStartSettled (reply : Settled NegotiationResponse.t) (f : Fresh)
| ASendOffer (price : number) (message : string) (f : Fresh)
| AOfferSettled (id : string) (reply : Settled NegotiationResponse.t) (f : Fresh)
| AReset
| AFlounceUsed.

Definition step (a : Action) (window : option (gmap string string)) (s : NegotiationStore)
    : option (gmap string string) * NegotiationStore * list ApiCall :=
  match a with
  | ASetDrawerOpen o => (window, setDrawerOpen o s, [])
  | ASetLanguage l => (setLanguage l window s, [])
  | AStartSession p n => let '(s1, c) := startSession_begin p n s in (window, s1, [c])
  | AStartSettled reply f => (window, fst (startSession_settle reply f s), [])
  | ASendOffer price message f =>
      match sendOffer_begin price message f s with
      | Some (s1, c) => (window, s1, [c])
      | None => (window, s, [])
      end
  | AOfferSettled id reply f => (window, fst (sendOffer_settle id reply f s), [])
  | AReset => (window, reset s, [])
  | AFlounceUsed => (window, set_flounceUsed true s, [])
  end.

(** The store after a run. *)
Fixpoint run (acts : list Action) (window : option (gmap string string))
    (s : NegotiationStore) : option (gmap string string) * NegotiationStore :=
  match acts with
  | [] => (window, s)
  | a :: rest => let '(w1, s1, _) := step a window s in run rest w1 s1
  end.

(** The token of the start response applied last, if any: it is what the
    backend issued for the session the store is in. *)
Definition issued_after (a : Action) (issued : option string) : option string :=
  match a with
  | AStartSettled (Resolved res) _ => Some (NegotiationResponse.session_token res)
  | _ => issued
  end.

(** The stored token, when there is one, is the token issued last. *)
Definition token_is_issued (s : NegotiationStore) (issued : option string) : Prop :=
  match sessionToken s with
  | Some t => issued = Some t
  | None => True
  end.

(** The calls a run makes, each with the token issued at that time. *)
Fixpoint calls_of (acts : list Action) (window : option (gmap string string))
    (s : NegotiationStore) (issued : option string) : list (ApiCall * option string) :=
  match acts with
  | [] => []
  | a :: rest =>
      let '(w1, s1, cs) := step a window s in
      (map (fun c => (c, issued)) cs ++ calls_of rest w1 s1 (issued_after a issued))%list
  end.

(** A step after which the walk-away dialog may be offered anew. *)
Definition rearms (a : Action) : bool :=
  match a with
  | AReset | AStartSession _ _ => true
  | _ => false
  end.

(** A step that ends loading: a call settles, or the store is reset. *)
Definition ends_loading (a : Action) : bool :=
  match a with
  | AStartSettled _ _ | AOfferSettled _ _ _ | AReset => true
  | _ => false
  end.

(** ** The session behind a response *)

(** Modelled from the spec: an entry of a session's offer list (data model,
    Offer); the backend is not among these sources. *)
Record Offer := {
  offer_actor : Actor;
  offer_price : number;
  offer_message : string;
  offer_tactic : string;
  offer_timestamp : Z;
  offer_round : number;
  offer_features : gmap string number
}.

(** Modelled from the spec: the backend's NegotiationSession record (data
    model), which holds the floor price; the backend is not among these
    sources. *)
Module NegotiationSession.
Record t := mk {
  session_id : string;
  session_token : string;
  product_id : string;
  buyer_id_or_ip : string;
  language : Language;
  anchor_price : number;
  floor_price : number;
  current_price : number;
  last_buyer_price : number;
  round : number;
  max_rounds : number;
  state : NegotiationState;
  tactic : string;
  sentiment : string;
  beta : number;
  alpha : number;
  offers : list Offer;
  bot_score : number;
  flounce_used : bool;
  coupons_applied : gset string;
  created_at : Z;
  updated_at : Z;
  agreed_price : option number;
  quote_ttl_seconds : number
}.

(** The same session with another floor. *)
Definition with_floor_price (fl : number) (x : t) : t :=
  mk (session_id x) (session_token x) (product_id x) (buyer_id_or_ip x) (language x)
     (anchor_price x) fl (current_price x) (last_buyer_price x) (round x)
     (max_rounds x) (state x) (tactic x) (sentiment x) (beta x) (alpha x) (offers x)
     (bot_score x) (flounce_used x) (coupons_applied x) (created_at x) (updated_at x)
     (agreed_price x) (quote_ttl_seconds x).
End NegotiationSession.

(** Modelled from the spec: the session_response wire format (external
    interfaces) of a session, with the message and metadata the dialogue
    step produced; the backend is not among these sources. *)
Definition session_response (x : NegotiationSession.t) (message : string)
    (metadata : gmap string JSON) : NegotiationResponse.t :=
  {| NegotiationResponse.session_id := NegotiationSession.session_id x;
     NegotiationResponse.session_token := NegotiationSession.session_token x;
     NegotiationResponse.message := message;
     NegotiationResponse.current_price := NegotiationSession.current_price x;
     NegotiationResponse.anchor_price := NegotiationSession.anchor_price x;
     NegotiationResponse.state := NegotiationSession.state x;
     NegotiationResponse.tactic := NegotiationSession.tactic x;
     NegotiationResponse.sentiment := NegotiationSession.sentiment x;
     NegotiationResponse.round := NegotiationSession.round x;
     NegotiationResponse.max_rounds := NegotiationSession.max_rounds x;
     NegotiationResponse.quote_ttl_seconds := NegotiationSession.quote_ttl_seconds x;
     NegotiationResponse.agreed_price := NegotiationSession.agreed_price x;
     NegotiationResponse.metadata := metadata |}.

(** The meter the buyer sees on the page of [product] once the response
    [res] has been applied to the store. *)
Definition meter_shown (product : Product.t) (res : NegotiationResponse.t)
    (isStart : bool) (f : Fresh) (s : NegotiationStore) : FairnessMeter.View :=
  let s1 := _applyResponse res isStart f s in
  FairnessMeter.render
    (NegotiationDrawer.meter_props (ProductActions.drawer_props product s1)) s1.

(** ** A worked session *)

Definition demo_product : Product.t :=
  Product.mk "saree-01" "Banarasi Silk Saree" "clothing" 12999 9000 0.05 0.3 ∅.

Definition demo_session : NegotiationSession.t :=
  NegotiationSession.mk "0123456789abcdef0123456789abcdef" "tok-7f3a" "saree-01" "buyer-1" en
    12999 9450 12999 0 0 15 proposing "opening_anchor" "neutral" 5 0.6 [] 0 false ∅
    0 0 None 60.

Definition demo_start_response : NegotiationResponse.t :=
  session_response demo_session "Namaste! Sirf 12999 mein." ∅.

Definition demo_fresh (id : string) (now : Z) : Fresh :=
  {| fresh_id := id; fresh_now := now |}.

(** The store once the buyer has pressed "Negotiate Price" in the browser and
    the start response has arrived. *)
Definition demo_store : NegotiationStore :=
  fst (fst (ProductActions.handleNegotiate demo_product (Resolved demo_start_response)
              (demo_fresh "k3x9q2ab" 1000) (initial_store (Some ∅)))).

(** The counter-offer that closes the session. *)
Definition demo_agreed_response : NegotiationResponse.t :=
  session_response
    (NegotiationSession.mk "0123456789abcdef0123456789abcdef" "tok-7f3a" "saree-01" "buyer-1"
       en 12999 9450 12999 12999 1 15 agreed "accept" "positive" 5 0.6 [] 0 false ∅
       0 2000 (Some 12999%float) 60)
    "Pakka deal!" ∅.

(** The opening of a second session, on another product. *)
Definition demo_second_start_response : NegotiationResponse.t :=
  session_response
    (NegotiationSession.mk "fedcba9876543210fedcba9876543210" "tok-91c4" "lamp-02" "buyer-1"
       en 2499 1800 2499 0 0 15 proposing "opening_anchor" "neutral" 5 0.6 [] 0 false ∅
       5000 5000 None 60)
    "Aaiye, dekhiye!" ∅.

Definition demo_error : ApiError :=
  {| error_message := "Service unavailable"; error_status := Some 503%Z |}.

(** ** The rest of lib/api *)

(** [fetchProducts()] *)
Definition fetchProducts (API_BASE : string) : Request :=
  api.apiFetch API_BASE "/api/v1/products"
    {| method := None; headers := ∅; body := None |}.

(** [fetchProduct(id)] *)
Definition fetchProduct (API_BASE : string) (id : string) : Request :=
  api.apiFetch API_BASE ("/api/v1/products/" ++ encodeURIComponent id)
    {| method := None; headers := ∅; body := None |}.

(** ** app/products/[id]/page *)

Module ProductDetailPage.
Definition GRADIENTS : list string :=
  [ "from-orange-400 via-rose-400 to-pink-500";
    "from-blue-400 via-indigo-500 to-purple-500";
    "from-emerald-400 via-teal-500 to-cyan-500";
    "from-amber-400 via-orange-500 to-red-500";
    "from-violet-400 via-purple-500 to-fuchsia-500" ].

(** [x | 0]: the integer [x] wrapped to 32 bits, signed. *)
Definition to_int32 (x : Z) : Z :=
  ((x + 2147483648) mod 4294967296 - 2147483648)%Z.

(** [Math.imul(a, b)] *)
Definition Math_imul (a b : Z) : Z := to_int32 (a * b).

(** The UTF-16 code units of a string held as UTF-8 bytes; a code point
    above U+FFFF gives a surrogate pair, a byte that starts no sequence
    gives U+FFFD. *)
Fixpoint code_units (s : string) : list Z :=
  let byte (c : ascii) : Z := Z.of_nat (nat_of_ascii c) in
  let cont (c : ascii) : bool := ((128 <=? byte c) && (byte c <? 192))%Z in
  match s with
  | EmptyString => []
  | String c0 rest =>
      let b0 := byte c0 in
      if (b0 <? 128)%Z then b0 :: code_units rest
      else
        match rest with
        | String c1 rest1 =>
            if ((192 <=? b0) && (b0 <? 224))%Z && cont c1 then
              ((b0 - 192) * 64 + (byte c1 - 128))%Z :: code_units rest1
            else
              match rest1 with
              | String c2 rest2 =>
                  if ((224 <=? b0) && (b0 <? 240))%Z && cont c1 && cont c2 then
                    ((b0 - 224) * 4096 + (byte c1 - 128) * 64 + (byte c2 - 128))%Z
                      :: code_units rest2
                  else
                    match rest2 with
                    | String c3 rest3 =>
                        if ((240 <=? b0) && (b0 <? 248))%Z && cont c1 && cont c2 && cont c3
                        then
                          let cp := ((b0 - 240) * 262144 + (byte c1 - 128) * 4096
                                     + (byte c2 - 128) * 64 + (byte c3 - 128) - 65536)%Z in
                          (55296 + cp / 1024)%Z :: (56320 + cp mod 1024)%Z
                            :: code_units rest3
                        else 65533%Z :: code_units rest
                    | EmptyString => 65533%Z :: code_units rest
                    end
              | EmptyString => 65533%Z :: code_units rest
              end
        | EmptyString => [65533%Z]
        end
  end.

(** The loop of [hashCode], over the code units [s.charCodeAt(i)]. *)
Definition hash_units (units : list Z) : Z :=
  fold_left (fun h c => to_int32 (Math_imul 31 h + c)) units 0%Z.

(** [hashCode(s)] *)
Definition hashCode (s : string) : Z := Z.abs (hash_units (code_units s)).

(** [hashCode(product.id) % GRADIENTS.length] *)
Definition gradientIndex (product : Product.t) : Z :=
  Z.rem (hashCode (Product.id product)) (Z.of_nat (length GRADIENTS)).

(** [GRADIENTS[gradientIndex]] *)
Definition gradient (product : Product.t) : option string :=
  if (gradientIndex product <? 0)%Z then None
  else nth_error GRADIENTS (Z.to_nat (gradientIndex product)).
End ProductDetailPage.

(** ** components/negotiation/BazaarBotAvatar *)

Module BazaarBotAvatar.
Inductive AvatarState := idle | thinking | flinch | deal.

Definition deriveAvatarState (isLoading : bool) (state : option NegotiationState)
    (tactic : string) (currentPrice anchorPrice : number) : AvatarState :=
  match state with
  | Some agreed => deal
  | _ =>
      if isLoading then thinking
      else if (0 <? currentPrice)%float && (0 <? anchorPrice)%float
              && (currentPrice <? anchorPrice * 0.3)%float
           then flinch
           else idle
  end.

(** The avatar the drawer shows for a store. *)
Definition avatarState (s : NegotiationStore) : AvatarState :=
  deriveAvatarState (isLoading s) (state s) (tactic s) (currentPrice s) (anchorPrice s).
End BazaarBotAvatar.

(** ** components/negotiation/SavingsSoundbox *)

Module SavingsSoundbox.
Definition isDeal (s : NegotiationStore) : bool :=
  match state s, agreedPrice s with
  | Some agreed, Some _ => true
  | _, _ => false
  end.

(** [isDeal ? anchorPrice - agreedPrice : 0], for the [anchorPrice] prop. *)
Definition saved (anchorPrice : number) (s : NegotiationStore) : number :=
  match state s, agreedPrice s with
  | Some agreed, Some a => (anchorPrice - a)%float
  | _, _ => 0%float
  end.
End SavingsSoundbox.

(** ** Whole-rupee prices *)

(** Whether [P] holds of [n], [n + 1], ..., [n + k - 1]. *)
Fixpoint all_from (k : nat) (n : Z) (P : Z -> bool) : bool :=
  match k with
  | O => true
  | S k' => P n && all_from k' (n + 1)%Z P
  end.

(** For the current price [n], a whole number of rupees: the walk-away price
    is the whole number nearest to 95% of [n], a half counting upwards, and
    above 10 rupees it is below [n]. *)
Definition walk_away_is_nearest (n : Z) : bool :=
  let current := number_of_Z n in
  let walk_away := Math_round (current * 0.95)%float in
  PrimFloat.Leibniz.eqb walk_away (number_of_Z ((19 * n + 10) / 20))
  && ((n <=? 10)%Z || (walk_away <? current)%float).

(** ** Rounding in binary64 arithmetic

    What the proofs about the meter need of the arithmetic of [number]s:
    the operations round an exact result to the nearest float, ties to
    even.  Values are compared as integers, scaled by a power of two. *)

(** The number of binary digits of a mantissa. *)
Definition dig (m : positive) : Z := Zpos (digits2_pos m).

(** The mantissa that rounding [m / 2^n] to the nearest integer keeps, a
    tie going to the even one. *)
Definition RNE (m n : Z) : Z :=
  (let q := m / 2 ^ n in
   let rho := m mod 2 ^ n in
   let h := 2 ^ (n - 1) in
   if rho <? h then q
   else if rho =? h then (if Z.even q then q else q + 1)
   else q + 1)%Z.






(** ** Prices that are numbers *)


Open Scope list_scope.

(** ** Order of binary64 values *)

Section FloatOrder.
Local Open Scope float_scope.

Lemma SFcompare_swap (x y : spec_float) :
  SFcompare y x = option_map CompOpp (SFcompare x y).
Proof.
  destruct x as [sx|sx| |sx mx ex], y as [sy|sy| |sy my ey]; simpl; trivial;
    try (destruct sx; reflexivity); try (destruct sy; reflexivity);
    try (destruct sx, sy; reflexivity).
  assert (Hm : PosDef.Pos.compare_cont Eq my mx = CompOpp (PosDef.Pos.compare_cont Eq mx my))
    by (symmetry; exact (Pos.compare_cont_antisym mx my Eq)).
  destruct sx, sy; simpl; trivial;
    rewrite (Z.compare_antisym ex ey), Hm;
    destruct (ex ?= ey)%Z; simpl; trivial;
    destruct (PosDef.Pos.compare_cont Eq mx my); reflexivity.
Qed.

Lemma is_nan_false_spec (x : float) :
  is_nan x = false -> Prim2SF x <> S754_nan.
Proof.
  unfold is_nan. rewrite FloatAxioms.eqb_spec. intros H E. rewrite E in H. discriminate.
Qed.

Lemma SFcompare_total (x y : spec_float) :
  x <> S754_nan -> y <> S754_nan -> exists c, SFcompare x y = Some c.
Proof.
  intros Hx Hy. destruct x, y; simpl; try congruence; eauto.
Qed.

Lemma ltb_leb (x y : float) : (x <? y) = true -> (x <=? y) = true.
Proof.
  rewrite ltb_spec, leb_spec. unfold SFltb, SFleb.
  destruct (SFcompare _ _) as [[]|]; congruence.
Qed.

Lemma eqb_leb (x y : float) : (x =? y) = true -> (x <=? y) = true.
Proof.
  rewrite FloatAxioms.eqb_spec, leb_spec. unfold SFeqb, SFleb.
  destruct (SFcompare _ _) as [[]|]; congruence.
Qed.

Lemma ltb_false_leb (x y : float) :
  is_nan x = false -> is_nan y = false -> (y <? x) = false -> (x <=? y) = true.
Proof.
  intros Hx Hy. apply is_nan_false_spec in Hx, Hy.
  rewrite ltb_spec, leb_spec. unfold SFltb, SFleb.
  rewrite (SFcompare_swap (Prim2SF x) (Prim2SF y)).
  destruct (SFcompare_total _ _ Hx Hy) as [c ->]. destruct c; simpl; congruence.
Qed.


(** ... and of NaN it is NaN. *)
Lemma clamp_nan (e : float) :
  is_nan e = true -> Math_max 0 (Math_min 100 e) = nan.
Proof.
  intros He. unfold Math_min. rewrite He, orb_true_r. reflexivity.
Qed.

Lemma SFcompare_refl (x : spec_float) :
  x <> S754_nan -> SFcompare x x = Some Eq.
Proof.
  destruct x as [sx|sx| |sx mx ex]; simpl; try congruence; intros _;
    try (destruct sx; reflexivity).
  assert (Hm : PosDef.Pos.compare_cont Eq mx mx = Eq)
    by exact (Pos.compare_cont_refl mx Eq).
  destruct sx; rewrite Z.compare_refl, Hm; reflexivity.
Qed.

Lemma is_nan_true_spec (x : float) :
  is_nan x = true -> Prim2SF x = S754_nan.
Proof.
  unfold is_nan. rewrite FloatAxioms.eqb_spec. unfold SFeqb. intros H.
  destruct (Prim2SF x) as [sx|sx| |sx mx ex] eqn:E; trivial;
    rewrite SFcompare_refl in H by discriminate; discriminate.
Qed.



Lemma SFcompare_Eq_inv (x y : spec_float) :
  SFcompare x y = Some Eq ->
  x = y \/ exists sx sy, x = S754_zero sx /\ y = S754_zero sy.
Proof.
  destruct x as [sx|sx| |sx mx ex], y as [sy|sy| |sy my ey]; simpl;
    try discriminate; try (destruct sx; discriminate); try (destruct sy; discriminate).
  - intros _. right. eauto.
  - destruct sx, sy; try discriminate; now left.
  - assert (Hm : PosDef.Pos.compare_cont Eq mx my = Eq -> mx = my)
      by exact (proj1 (Pos.compare_eq_iff mx my)).
    destruct sx, sy; try discriminate; destruct (ex ?= ey)%Z eqn:He; try discriminate;
      apply Z.compare_eq_iff in He; subst ey; intros [= H]; left; f_equal; apply Hm;
      destruct (PosDef.Pos.compare_cont Eq mx my); trivial; discriminate.
Qed.

(** [x === y] on numbers, for [y] other than zero, is equality. *)
Lemma eqb_eq (x y : float) :
  (x =? y) = true -> is_zero y = false -> x = y.
Proof.
  unfold is_zero. rewrite !FloatAxioms.eqb_spec. unfold SFeqb. intros H Hz.
  destruct (SFcompare (Prim2SF x) (Prim2SF y)) as [[]|] eqn:E; try discriminate.
  apply SFcompare_Eq_inv in E as [E | [sx [sy [_ E]]]].
  - now apply Prim2SF_inj.
  - rewrite E in Hz. discriminate.
Qed.
End FloatOrder.

(** ** The fairness meter and the floor *)

(** C1.  The floor price does not reach the buyer's meter.  A
    session_response is built from a session without reading its floor, and
    for two sessions that agree on the anchor price and on the current price
    (and otherwise differ at will: floor, cost and margin of the product,
    messages, the client's earlier state), the meter drawn after the
    response is applied is the same: lower bound, upper bound, pointer
    percentage, zone and current-price line. *)
Theorem C1_meter_independent_of_floor :
  forall (a b : NegotiationSession.t) (msg_a msg_b : string)
         (md_a md_b : gmap string JSON) (product_a product_b : Product.t)
         (start_a start_b : bool) (fa fb : Fresh) (sa sb : NegotiationStore),
    NegotiationSession.anchor_price a = NegotiationSession.anchor_price b ->
    NegotiationSession.current_price a = NegotiationSession.current_price b ->
    Product.anchor_price product_a = NegotiationSession.anchor_price a ->
    Product.anchor_price product_b = NegotiationSession.anchor_price b ->
    meter_shown product_a (session_response a msg_a md_a) start_a fa sa
    = meter_shown product_b (session_response b msg_b md_b) start_b fb sb
    /\ (forall fl : number,
          session_response (NegotiationSession.with_floor_price fl a) msg_a md_a
          = session_response a msg_a md_a)
    /\ meter_shown product_a (session_response a msg_a md_a) start_a fa sa
       = FairnessMeter.Meter
           (formatPrice (NegotiationSession.anchor_price a * 0.6)%float)
           (FairnessMeter.label
              (FairnessMeter.activeZone
                 {| FairnessMeter.anchorPrice := NegotiationSession.anchor_price a;
                    FairnessMeter.visualFloorPercent := None |}
                 (_applyResponse (session_response a msg_a md_a) start_a fa sa)))
           (formatPrice (NegotiationSession.anchor_price a))
           (FairnessMeter.percentage
              {| FairnessMeter.anchorPrice := NegotiationSession.anchor_price a;
                 FairnessMeter.visualFloorPercent := None |}
              (_applyResponse (session_response a msg_a md_a) start_a fa sa))
           (formatPrice (NegotiationSession.current_price a)).
Proof.
  intros a b msg_a msg_b md_a md_b pa pb ia ib fa fb sa sb Hanchor Hcur Hpa Hpb.
  unfold meter_shown, FairnessMeter.render, FairnessMeter.activeZone,
    FairnessMeter.percentage, FairnessMeter.position, FairnessMeter.range,
    FairnessMeter.visualFloor, FairnessMeter.floorPercent,
    NegotiationDrawer.meter_props, ProductActions.drawer_props.
  cbn [_applyResponse session_response state currentPrice
       FairnessMeter.anchorPrice FairnessMeter.visualFloorPercent
       NegotiationDrawer.anchorPrice
       NegotiationResponse.current_price NegotiationResponse.state].
  rewrite Hpa, Hpb, Hanchor, Hcur.
  repeat split.
Qed.

Lemma C1_meter_independent_of_floor_witness :
  let other := NegotiationSession.with_floor_price 7000 demo_session in
  let other_product :=
    Product.mk "saree-01" "Banarasi Silk Saree" "clothing" 12999 6500 0.08 0.3 ∅ in
  (NegotiationSession.floor_price demo_session <? NegotiationSession.floor_price other)%float
  = false
  /\ (NegotiationSession.floor_price other <? NegotiationSession.floor_price demo_session)%float
     = true
  /\ meter_shown demo_product (session_response demo_session "Namaste!" ∅) true
       (demo_fresh "a1" 1) (initial_store (Some ∅))
     = meter_shown other_product (session_response other "Aaiye!" ∅) false
         (demo_fresh "b2" 2) demo_store.
Proof.
  split; [reflexivity|]. split; [reflexivity|].
  apply (C1_meter_independent_of_floor demo_session
           (NegotiationSession.with_floor_price 7000 demo_session));
    reflexivity.
Defined.

(** ** The walk-away price *)

(** C2.  In a store that holds a session, the price the walk-away dialog
    shows and sends is [Math.round(currentPrice * 0.95)]: the seller's
    current counter-offer less 5%, rounded to the nearest integer.  It is the
    price of the offer call that "Accept Deal!" makes, and it is a function
    of [currentPrice] alone, so the anchor price has no part in it. *)
Theorem C2_walk_away_price :
  forall (s : NegotiationStore) (i t : string)
         (reply : Settled NegotiationResponse.t) (f f' : Fresh) (showFlounce : bool),
    session_credentials s = Some (i, t) ->
    DigitalFlounce.walkAwayPrice s = Math_round (currentPrice s * 0.95)%float
    /\ (exists rest,
          snd (NegotiationDrawer.acceptDeal reply f f' showFlounce s)
          = ApiRequest
              (call_sendOffer i t (Math_round (currentPrice s * 0.95)%float)
                 "Walk-away deal accepted" (language s)) :: rest)
    /\ (forall s' : NegotiationStore,
          currentPrice s' = currentPrice s ->
          DigitalFlounce.walkAwayPrice s' = DigitalFlounce.walkAwayPrice s).
Proof.
  intros s i t reply f f' showFlounce Hcred.
  split; [reflexivity|]. split.
  - unfold NegotiationDrawer.acceptDeal, DigitalFlounce.handleAcceptDeal,
      sendOffer, sendOffer_begin.
    rewrite Hcred. destruct reply as [res|err]; simpl; eexists; reflexivity.
  - intros s' Hs'. unfold DigitalFlounce.walkAwayPrice. now rewrite Hs'.
Qed.

Lemma C2_walk_away_price_witness :
  session_credentials demo_store = Some ("0123456789abcdef0123456789abcdef", "tok-7f3a")
  /\ DigitalFlounce.walkAwayPrice demo_store = 12349%float
  /\ DigitalFlounce.walkAwayPrice demo_store
     = Math_round (currentPrice demo_store * 0.95)%float.
Proof.
  split; [reflexivity|]. split; [reflexivity|].
  exact (proj1 (C2_walk_away_price demo_store "0123456789abcdef0123456789abcdef" "tok-7f3a"
                  (Rejected demo_error) (demo_fresh "m1" 3000) (demo_fresh "m2" 3001) true
                  eq_refl)).
Defined.

(** ** The price form in a closed session *)

(** A closed session is still changed from the drawer.  In the store of an
    agreed session a close of the drawer is not intercepted and resets the
    store: session id, token, state, prices and chat are gone.  And a
    walk-away dialog raised while an offer was pending is still open when
    the reply closes the session; its "Accept Deal!" then makes one more
    offer call and appends a bubble. *)
Lemma C3_closed_session_is_still_changed :
  let closed := _applyResponse demo_agreed_response false (demo_fresh "s2" 2000) demo_store in
  let after_close :=
    snd (NegotiationDrawer.handleOpenChange
           (ProductActions.drawer_props demo_product closed) false false closed) in
  let pending :=
    match sendOffer_begin 12999 "" (demo_fresh "m1" 3000) demo_store with
    | Some (s1, _) => s1
    | None => demo_store
    end in
  let intercepted :=
    NegotiationDrawer.handleOpenChange
      (ProductActions.drawer_props demo_product pending) false false pending in
  let closed_meanwhile :=
    fst (sendOffer_settle "m1" (Resolved demo_agreed_response) (demo_fresh "s2" 4000)
           (snd intercepted)) in
  let accepted :=
    NegotiationDrawer.acceptDeal (Rejected demo_error) (demo_fresh "m3" 5000)
      (demo_fresh "s4" 5001) (fst intercepted) closed_meanwhile in
  (state closed = Some agreed
   /\ sessionId closed = Some "0123456789abcdef0123456789abcdef"
   /\ currentPrice closed = 12999%float
   /\ agreedPrice closed = Some 12999%float
   /\ length (messages closed) = 2%nat
   /\ sessionId after_close = None
   /\ sessionToken after_close = None
   /\ state after_close = None
   /\ currentPrice after_close = 0%float
   /\ agreedPrice after_close = None
   /\ messages after_close = [])
  /\ (fst intercepted = true
      /\ state closed_meanwhile = Some agreed
      /\ length (messages closed_meanwhile) = 3%nat
      /\ snd accepted
         = [ ApiRequest
               (call_sendOffer "0123456789abcdef0123456789abcdef" "tok-7f3a" 12349
                  "Walk-away deal accepted" "en");
             ToastError "Service unavailable" ]
      /\ length (messages (snd (fst accepted))) = 4%nat).
Proof. repeat split. Qed.

(** C3.  Once the state is agreed, broken or timed_out, the price field, the
    message field (when shown), the message toggle and the submit button of
    PriceInput are disabled, so nothing the buyer does to the form reaches a
    handler: the form's own state and the store stay as they are and no
    request goes out.  A close of the drawer is then never intercepted by the
    walk-away guard: it goes through to the parent and the store is reset,
    which on the product page leaves no session id, token, state or chat. *)
Theorem C3_terminal_state_disables_price_input :
  forall (l : PriceInput.Local) (s : NegotiationStore),
    state s = Some agreed \/ state s = Some broken \/ state s = Some timed_out ->
    PriceInput.price_input (PriceInput.render l s) = true
    /\ PriceInput.message_input (PriceInput.render l s)
       = (if PriceInput.showMessage l then Some true else None)
    /\ PriceInput.submit_button (PriceInput.render l s) = true
    /\ PriceInput.toggle_button (PriceInput.render l s) = true
    /\ (forall (ev : PriceInput.Event) (reply : Settled NegotiationResponse.t)
               (f f' : Fresh),
          PriceInput.dispatch ev reply f f' l s = (l, s, []))
    /\ (forall nextOpen : bool, NegotiationDrawer.intercepts nextOpen s = false)
    /\ (forall (p : NegotiationDrawer.Props) (showFlounce : bool),
          NegotiationDrawer.handleOpenChange p false showFlounce s
          = (showFlounce, reset (NegotiationDrawer.onOpenChange p false s)))
    /\ (forall (product : Product.t) (showFlounce : bool),
          NegotiationDrawer.handleOpenChange (ProductActions.drawer_props product s)
            false showFlounce s
          = (showFlounce, reset s)
          /\ sessionId (reset s) = None /\ sessionToken (reset s) = None
          /\ state (reset s) = None /\ messages (reset s) = []
          /\ drawerOpen (reset s) = false).
Proof.
  intros l s Hterm.
  assert (Hd : PriceInput.disabled s = true).
  { unfold PriceInput.disabled, PriceInput.isTerminal.
    destruct Hterm as [-> | [-> | ->]]; apply orb_true_r. }
  assert (Hi : forall nextOpen : bool, NegotiationDrawer.intercepts nextOpen s = false).
  { intros nextOpen. unfold NegotiationDrawer.intercepts, NegotiationDrawer.isActive.
    destruct Hterm as [-> | [-> | ->]]; now rewrite andb_false_r. }
  split; [exact Hd|]. split.
  { cbn [PriceInput.render PriceInput.message_input]. now rewrite Hd. }
  split.
  { cbn [PriceInput.render PriceInput.submit_button]. now rewrite Hd. }
  split; [exact Hd|]. split.
  { intros ev reply f f'. unfold PriceInput.dispatch.
    cbn [PriceInput.render PriceInput.message_input PriceInput.submit_button
         PriceInput.price_input PriceInput.toggle_button].
    rewrite Hd. destruct ev; cbn [orb]; trivial.
    destruct (PriceInput.showMessage l); reflexivity. }
  split; [exact Hi|]. split.
  - intros p showFlounce. unfold NegotiationDrawer.handleOpenChange.
    now rewrite Hi.
  - intros product showFlounce. unfold NegotiationDrawer.handleOpenChange.
    rewrite Hi. repeat split.
Qed.

Lemma C3_terminal_state_disables_price_input_witness :
  let closed := _applyResponse demo_agreed_response false (demo_fresh "s2" 2000) demo_store in
  let form := {| PriceInput.priceStr := "12,500"; PriceInput.message := "last price?";
                 PriceInput.showMessage := true |} in
  state closed = Some agreed
  /\ PriceInput.dispatch PriceInput.Submit (Resolved demo_start_response)
       (demo_fresh "m3" 4000) (demo_fresh "m4" 4001) form closed
     = (form, closed, []).
Proof.
  split; [reflexivity|].
  exact (proj1 (proj2 (proj2 (proj2 (proj2
           (C3_terminal_state_disables_price_input
              {| PriceInput.priceStr := "12,500"; PriceInput.message := "last price?";
                 PriceInput.showMessage := true |}
              (_applyResponse demo_agreed_response false (demo_fresh "s2" 2000) demo_store)
              (or_introl eq_refl))))))
           PriceInput.Submit (Resolved demo_start_response)
           (demo_fresh "m3" 4000) (demo_fresh "m4" 4001)).
Defined.

(** ** Submitting a price *)

Lemma mark_status_length (id : string) (st : Status) (ms : list ChatMessage.t) :
  length (mark_status id st ms) = length ms.
Proof. apply length_map. Qed.

(** What the guard of [handleSubmit] does stop: a parsed price that is NaN,
    below zero (minus infinity too) or zero is answered with a toast, before
    [sendOffer] is reached; form and store stay as they are. *)
Lemma handleSubmit_rejects_nan_negative_zero :
  forall (l : PriceInput.Local) (s : NegotiationStore)
         (reply : Settled NegotiationResponse.t) (f f' : Fresh),
    let price := parseFloat (remove_commas (PriceInput.priceStr l)) in
    PrimFloat.is_nan price = true \/ (price <? 0)%float = true \/ (price =? 0)%float = true ->
    PriceInput.handleSubmit reply f f' l s = (l, s, [ToastError "Enter a valid price"]).
Proof.
  intros l s reply f f' price H. unfold PriceInput.handleSubmit, isNaN. fold price.
  destruct H as [-> | [H | H]]; [reflexivity | |].
  - rewrite (ltb_leb _ _ H). now rewrite orb_true_r.
  - rewrite (eqb_leb _ _ H). now rewrite orb_true_r.
Qed.

(** C4, at the price string "Infinity".  The parsed price is plus infinity,
    which is not finite; the guard [isNaN(price) || price <= 0] lets it
    through, so in a store that holds a session [sendOffer] runs: the offer
    call goes out with that price and the chat grows by the buyer's bubble. *)
Theorem C4_infinite_price_is_offered :
  forall (s : NegotiationStore) (i t : string)
         (reply : Settled NegotiationResponse.t) (f f' : Fresh)
         (message : string) (showMessage : bool),
    session_credentials s = Some (i, t) ->
    let form := {| PriceInput.priceStr := "Infinity"; PriceInput.message := message;
                   PriceInput.showMessage := showMessage |} in
    parseFloat (remove_commas (PriceInput.priceStr form)) = PrimFloat.infinity
    /\ PrimFloat.is_finite PrimFloat.infinity = false
    /\ exists form' s' rest,
         PriceInput.handleSubmit reply f f' form s
         = (form', s',
            ApiRequest (call_sendOffer i t PrimFloat.infinity (trim message) (language s))
              :: rest)
         /\ (length (messages s) < length (messages s'))%nat.
Proof.
  intros s i t reply f f' message showMessage Hcred form.
  split; [reflexivity|]. split; [reflexivity|].
  unfold PriceInput.handleSubmit.
  replace (parseFloat (remove_commas (PriceInput.priceStr form))) with PrimFloat.infinity
    by reflexivity.
  replace (isNaN PrimFloat.infinity || (PrimFloat.infinity <=? 0)%float) with false
    by reflexivity.
  unfold sendOffer, sendOffer_begin. rewrite Hcred.
  destruct reply as [res|err]; cbn [sendOffer_settle]; do 3 eexists; (split; [reflexivity|]);
    cbn [_applyResponse set_chat messages]; rewrite ?length_app, ?mark_status_length,
      ?length_app; cbn [length]; lia.
Qed.

Lemma C4_infinite_price_is_offered_witness :
  session_credentials demo_store = Some ("0123456789abcdef0123456789abcdef", "tok-7f3a")
  /\ exists form' s' rest,
       PriceInput.handleSubmit (Rejected demo_error) (demo_fresh "m1" 3000)
         (demo_fresh "m2" 3001)
         {| PriceInput.priceStr := "Infinity"; PriceInput.message := "";
            PriceInput.showMessage := false |}
         demo_store
       = (form', s',
          ApiRequest
            (call_sendOffer "0123456789abcdef0123456789abcdef" "tok-7f3a"
               PrimFloat.infinity (trim "") (language demo_store)) :: rest)
       /\ (length (messages demo_store) < length (messages s'))%nat.
Proof.
  split; [reflexivity|].
  exact (proj2 (proj2 (C4_infinite_price_is_offered demo_store
                         "0123456789abcdef0123456789abcdef" "tok-7f3a"
                         (Rejected demo_error) (demo_fresh "m1" 3000)
                         (demo_fresh "m2" 3001) "" false eq_refl))).
Defined.

(** The same submission run through: the bubble is appended, the call is
    made, and the body [JSON.stringify] writes carries [null] as the price. *)
Example handleSubmit_Infinity :
  PriceInput.handleSubmit (Rejected demo_error) (demo_fresh "m1" 3000)
    (demo_fresh "m2" 3001)
    {| PriceInput.priceStr := "Infinity"; PriceInput.message := "";
       PriceInput.showMessage := false |}
    demo_store
  = ({| PriceInput.priceStr := "Infinity"; PriceInput.message := "";
        PriceInput.showMessage := false |},
     set_chat
       (messages demo_store
          ++ [ChatMessage.mk "m1" buyer (Rupees PrimFloat.infinity) PrimFloat.infinity
                None None 3000 error])
       false demo_store,
     [ApiRequest
        (call_sendOffer "0123456789abcdef0123456789abcdef" "tok-7f3a"
           PrimFloat.infinity "" "en");
      ToastError "Service unavailable"])
  /\ body (init (request_of ""
                   (call_sendOffer "0123456789abcdef0123456789abcdef" "tok-7f3a"
                      PrimFloat.infinity "" "en")))
     = Some (JObject [("price", JNull); ("message", JString ""); ("language", JString "en")]).
Proof. split; reflexivity. Qed.

(** ** When the offer call fails *)

Lemma mark_status_fresh (id : string) (st : Status) (ms : list ChatMessage.t) :
  Forall (fun m => ChatMessage.id m <> id) ms -> mark_status id st ms = ms.
Proof.
  induction 1 as [|m ms Hm _ IH]; [reflexivity|].
  unfold mark_status in *. cbn [map]. rewrite IH.
  apply String.eqb_neq in Hm. now rewrite Hm.
Qed.

Lemma mark_status_lookup (id : string) (st : Status) (ms : list ChatMessage.t)
    (n : nat) (m : ChatMessage.t) :
  ms !! n = Some m ->
  mark_status id st ms !! n
  = Some (if String.eqb (ChatMessage.id m) id then ChatMessage.with_status st m else m).
Proof.
  intros H. unfold mark_status. rewrite list_lookup_fmap, H. reflexivity.
Qed.

(** C5.  When the offer call of [sendOffer] is rejected, [sendOffer] throws
    the same error on, and the store differs from the one before the call
    only in the chat and in [isLoading]: sessionId, sessionToken, state,
    round, currentPrice, agreedPrice, tactic and maxRounds (and the
    remaining fields) are those from before.  [isLoading] ends false.  The
    chat ends one bubble longer than before the call: the buyer's bubble,
    which was appended as "sending", stands last with the status "error" and
    its other fields as they were.  In the chat as it stood while the call
    was pending, every bubble with the pending id ends with the status
    "error", its other fields kept, and every other bubble is unchanged;
    when the id was new, the buyer's bubble is the only one that changed. *)
Theorem C5_failed_offer_leaves_session :
  forall (s : NegotiationStore) (i t : string) (price : number) (message : string)
         (err : ApiError) (f f' : Fresh),
    session_credentials s = Some (i, t) ->
    exists pending s' bubble,
      sendOffer_begin price message f s
      = Some (pending, call_sendOffer i t price message (language s))
      /\ sendOffer price message (Rejected err) f f' s
         = (s', [call_sendOffer i t price message (language s)], Threw err)
      /\ (sessionId s' = sessionId s /\ sessionToken s' = sessionToken s
          /\ state s' = state s /\ round s' = round s
          /\ currentPrice s' = currentPrice s /\ agreedPrice s' = agreedPrice s
          /\ tactic s' = tactic s /\ maxRounds s' = maxRounds s)
      /\ s' = set_chat (messages s') false s
      /\ s' = set_chat (messages s') false pending
      /\ isLoading s' = false
      /\ bubble = ChatMessage.mk (fresh_id f) buyer
                    (if truthy_string message then Plain message else Rupees price)
                    price None None (fresh_now f) sending
      /\ messages pending = messages s ++ [bubble]
      /\ length (messages s') = length (messages pending)
      /\ (forall (n : nat) (m : ChatMessage.t),
            messages pending !! n = Some m ->
            messages s' !! n
            = Some (if String.eqb (ChatMessage.id m) (fresh_id f)
                    then ChatMessage.with_status error m else m))
      /\ (Forall (fun m => ChatMessage.id m <> fresh_id f) (messages s) ->
          messages s' = messages s ++ [ChatMessage.with_status error bubble])
      /\ messages s' !! length (messages s)
         = Some (ChatMessage.mk (fresh_id f) buyer
                   (if truthy_string message then Plain message else Rupees price)
                   price None None (fresh_now f) error)
      /\ (forall (n : nat) (m : ChatMessage.t),
            messages pending !! n = Some m ->
            ChatMessage.id m = fresh_id f ->
            messages s' !! n
            = Some (ChatMessage.mk (ChatMessage.id m) (ChatMessage.actor m)
                      (ChatMessage.text m) (ChatMessage.price m) (ChatMessage.tactic m)
                      (ChatMessage.metadata m) (ChatMessage.timestamp m) error))
      /\ (forall (n : nat) (m : ChatMessage.t),
            messages pending !! n = Some m ->
            ChatMessage.id m <> fresh_id f ->
            messages s' !! n = Some m)
      /\ (forall (n : nat) (m' : ChatMessage.t),
            messages s' !! n = Some m' ->
            ChatMessage.id m' = fresh_id f ->
            ChatMessage.status m' = error).
Proof.
  intros s i t price message err f f' Hcred.
  unfold sendOffer, sendOffer_begin. rewrite Hcred. cbn [sendOffer_settle].
  do 3 eexists. split; [reflexivity|]. split; [reflexivity|].
  cbn [set_chat sessionId sessionToken state round currentPrice agreedPrice tactic
       maxRounds messages isLoading].
  set (bubble := ChatMessage.mk (fresh_id f) buyer
                   (if truthy_string message then Plain message else Rupees price)
                   price None None (fresh_now f) sending).
  assert (Hlook : forall (n : nat) (m : ChatMessage.t),
             (messages s ++ [bubble]) !! n = Some m ->
             mark_status (fresh_id f) error (messages s ++ [bubble]) !! n
             = Some (if String.eqb (ChatMessage.id m) (fresh_id f)
                     then ChatMessage.with_status error m else m)).
  { intros n m Hn. now apply mark_status_lookup. }
  repeat split.
  - apply mark_status_length.
  - exact Hlook.
  - intros Hfresh. unfold mark_status. rewrite map_app.
    fold (mark_status (fresh_id f) error (messages s)).
    rewrite (mark_status_fresh _ _ _ Hfresh). cbn [map ChatMessage.id bubble].
    now rewrite String.eqb_refl.
  - rewrite (Hlook (length (messages s)) bubble).
    + cbn [bubble ChatMessage.id]. now rewrite String.eqb_refl.
    + rewrite lookup_app_r by lia. now rewrite Nat.sub_diag.
  - intros n m Hn Hid. rewrite (Hlook n m Hn).
    apply String.eqb_eq in Hid. now rewrite Hid.
  - intros n m Hn Hid. rewrite (Hlook n m Hn).
    apply String.eqb_neq in Hid. now rewrite Hid.
  - intros n m' Hn Hid. unfold mark_status in Hn.
    rewrite list_lookup_fmap in Hn.
    destruct ((messages s ++ [bubble]) !! n) as [m|] eqn:E; [|discriminate].
    cbn in Hn. injection Hn as <-.
    destruct (String.eqb (ChatMessage.id m) (fresh_id f)) eqn:Em; [reflexivity|].
    apply String.eqb_neq in Em. contradiction.
Qed.

Lemma C5_failed_offer_leaves_session_witness :
  session_credentials demo_store = Some ("0123456789abcdef0123456789abcdef", "tok-7f3a")
  /\ exists s',
       sendOffer 11000 "thoda kam karo" (Rejected demo_error) (demo_fresh "m1" 3000)
         (demo_fresh "m2" 3001) demo_store
       = (s',
          [call_sendOffer "0123456789abcdef0123456789abcdef" "tok-7f3a" 11000
             "thoda kam karo" (language demo_store)],
          Threw demo_error)
       /\ (sessionId s' = sessionId demo_store /\ sessionToken s' = sessionToken demo_store
           /\ state s' = state demo_store /\ round s' = round demo_store
           /\ currentPrice s' = currentPrice demo_store
           /\ agreedPrice s' = agreedPrice demo_store
           /\ tactic s' = tactic demo_store /\ maxRounds s' = maxRounds demo_store)
       /\ isLoading s' = false
       /\ messages s' !! length (messages demo_store)
          = Some (ChatMessage.mk "m1" buyer (Plain "thoda kam karo") 11000 None None 3000
                    error).
Proof.
  split; [reflexivity|].
  destruct (C5_failed_offer_leaves_session demo_store
              "0123456789abcdef0123456789abcdef" "tok-7f3a" 11000 "thoda kam karo"
              demo_error (demo_fresh "m1" 3000) (demo_fresh "m2" 3001) eq_refl)
    as (pending & s' & bubble & _ & Hsend & Hsession & _ & _ & Hload & _ & _ & _ & _ & _
        & Hlast & _).
  exists s'. split; [exact Hsend|]. split; [exact Hsession|]. split; [exact Hload|].
  exact Hlast.
Defined.

(** ** Offers without a session *)

(** C10.  With no session id or no session token in the store, [sendOffer]
    returns at once: no call to the API, no bubble, and the store it leaves
    is the store it found. *)
Theorem C10_send_offer_without_session_is_noop :
  forall (s : NegotiationStore) (price : number) (message : string)
         (reply : Settled NegotiationResponse.t) (f f' : Fresh),
    sessionId s = None \/ sessionToken s = None ->
    sendOffer price message reply f f' s = (s, [], Returned)
    /\ sendOffer_begin price message f s = None
    /\ step (ASendOffer price message f) None s = (None, s, []).
Proof.
  intros s price message reply f f' H.
  assert (Hnone : sendOffer_begin price message f s = None).
  { unfold sendOffer_begin, session_credentials.
    destruct H as [-> | ->]; [reflexivity|]. now destruct (sessionId s). }
  unfold sendOffer, step. rewrite Hnone. repeat split.
Qed.

Lemma C10_send_offer_without_session_is_noop_witness :
  sessionId (initial_store (Some ∅)) = None
  /\ sendOffer 11000 "thoda kam karo" (Resolved demo_start_response)
       (demo_fresh "m1" 3000) (demo_fresh "m2" 3001) (initial_store (Some ∅))
     = (initial_store (Some ∅), [], Returned).
Proof.
  split; [reflexivity|].
  exact (proj1 (C10_send_offer_without_session_is_noop (initial_store (Some ∅)) 11000
                  "thoda kam karo" (Resolved demo_start_response)
                  (demo_fresh "m1" 3000) (demo_fresh "m2" 3001) (or_introl eq_refl))).
Defined.

(** ** The walk-away dialog *)

Lemma step_keeps_flounceUsed (a : Action) (window : option (gmap string string))
    (s : NegotiationStore) :
  rearms a = false -> flounceUsed s = true ->
  flounceUsed (snd (fst (step a window s))) = true.
Proof.
  intros Ha Hs. destruct a as [o|l|p n|reply f|price message f|id reply f| |];
    try discriminate Ha; cbn [step]; trivial.
  - destruct reply; exact Hs.
  - unfold sendOffer_begin. destruct (session_credentials s) as [[i t]|]; exact Hs.
  - destruct reply; exact Hs.
Qed.

Lemma run_keeps_flounceUsed (acts : list Action) :
  forall (window : option (gmap string string)) (s : NegotiationStore),
    forallb (fun a => negb (rearms a)) acts = true -> flounceUsed s = true ->
    flounceUsed (snd (run acts window s)) = true.
Proof.
  induction acts as [|a rest IH]; intros window s Hacts Hs; [exact Hs|].
  cbn [forallb] in Hacts. apply andb_true_iff in Hacts as [Ha Hrest].
  apply negb_true_iff in Ha. cbn [run].
  pose proof (step_keeps_flounceUsed a window s Ha Hs) as Hstep.
  destruct (step a window s) as [[w1 s1] cs]. now apply IH.
Qed.

(** A walk-away deal whose offer call fails: "Accept Deal!" leaves
    [flounceUsed] false, and the next attempt to close the drawer is
    intercepted again, with no reset in between. *)
Lemma C6_failed_accept_is_not_one_shot :
  let after :=
    NegotiationDrawer.acceptDeal (Rejected demo_error) (demo_fresh "m1" 3000)
      (demo_fresh "m2" 3001) true demo_store in
  let s' := snd (fst after) in
  NegotiationDrawer.intercepts false demo_store = true
  /\ flounceUsed s' = false
  /\ NegotiationDrawer.intercepts false s' = true
  /\ NegotiationDrawer.handleOpenChange (ProductActions.drawer_props demo_product s')
       false (fst (fst after)) s'
     = (true, s').
Proof. repeat split. Qed.

(** C6.  Closing the drawer is intercepted exactly when the state
    is set and is none of agreed, broken, timed_out, and [flounceUsed] is
    false; otherwise [handleOpenChange] does not raise the dialog.  "Accept
    Deal!" sets [flounceUsed] when its offer call succeeds; when the call is
    rejected [flounceUsed] stays as it was.  Once [flounceUsed] is true it
    stays true, and no close is intercepted, through every run of store steps
    that has neither a reset nor the start of a new session; those two clear
    it. *)
Theorem C6_walk_away_one_shot :
  (forall (nextOpen : bool) (s : NegotiationStore),
      NegotiationDrawer.intercepts nextOpen s = true
      <-> nextOpen = false
          /\ (exists st, state s = Some st /\ st <> agreed /\ st <> broken /\ st <> timed_out)
          /\ flounceUsed s = false)
  /\ (forall (p : NegotiationDrawer.Props) (nextOpen showFlounce : bool)
             (s : NegotiationStore),
        NegotiationDrawer.handleOpenChange p nextOpen showFlounce s
        = if NegotiationDrawer.intercepts nextOpen s then (true, s)
          else (showFlounce,
                if nextOpen then NegotiationDrawer.onOpenChange p nextOpen s
                else reset (NegotiationDrawer.onOpenChange p nextOpen s)))
  /\ (forall (res : NegotiationResponse.t) (f f' : Fresh) (showFlounce : bool)
             (s : NegotiationStore),
        flounceUsed (snd (fst (NegotiationDrawer.acceptDeal (Resolved res) f f' showFlounce s)))
        = true)
  /\ (forall (err : ApiError) (f f' : Fresh) (showFlounce : bool) (s : NegotiationStore),
        session_credentials s <> None ->
        flounceUsed (snd (fst (NegotiationDrawer.acceptDeal (Rejected err) f f' showFlounce s)))
        = flounceUsed s)
  /\ (forall (acts : list Action) (window : option (gmap string string))
             (s : NegotiationStore) (nextOpen : bool),
        flounceUsed s = true ->
        forallb (fun a => negb (rearms a)) acts = true ->
        flounceUsed (snd (run acts window s)) = true
        /\ NegotiationDrawer.intercepts nextOpen (snd (run acts window s)) = false)
  /\ (forall (s : NegotiationStore) (productId productName : string),
        flounceUsed (reset s) = false
        /\ flounceUsed (fst (startSession_begin productId productName s)) = false).
Proof.
  split; [|split; [|split; [|split; [|split]]]].
  - intros nextOpen s. unfold NegotiationDrawer.intercepts, NegotiationDrawer.isActive.
    split.
    + intros H. apply andb_true_iff in H as [H Hf]. apply andb_true_iff in H as [Hn Ha].
      apply negb_true_iff in Hn, Hf. repeat split; trivial.
      destruct (state s) as [[]|]; try discriminate Ha; eexists; repeat split; discriminate.
    + intros [-> [[st [-> [H1 [H2 H3]]]] ->]]. destruct st; try reflexivity; congruence.
  - intros p nextOpen showFlounce s. unfold NegotiationDrawer.handleOpenChange.
    destruct (NegotiationDrawer.intercepts nextOpen s); trivial. now destruct nextOpen.
  - intros res f f' showFlounce s.
    unfold NegotiationDrawer.acceptDeal, DigitalFlounce.handleAcceptDeal, sendOffer.
    destruct (sendOffer_begin _ _ _ _) as [[s1 c]|]; reflexivity.
  - intros err f f' showFlounce s Hcred.
    unfold NegotiationDrawer.acceptDeal, DigitalFlounce.handleAcceptDeal, sendOffer,
      sendOffer_begin.
    destruct (session_credentials s) as [[i t]|]; [reflexivity | congruence].
  - intros acts window s nextOpen Hs Hacts.
    pose proof (run_keeps_flounceUsed acts window s Hacts Hs) as Hrun.
    split; [exact Hrun|].
    unfold NegotiationDrawer.intercepts. rewrite Hrun. apply andb_false_r.
  - intros s productId productName. split; reflexivity.
Qed.

(** ** The session token on the wire *)

Lemma sendOffer_header (API_BASE i t : string) (p : number) (m l : string) :
  headers (init (api.sendOffer API_BASE i t p m l)) !! "X-Session-Token" = Some t.
Proof.
  unfold api.sendOffer, api.apiFetch. cbn [init headers].
  apply lookup_union_Some_l. rewrite lookup_insert_ne by discriminate.
  apply lookup_insert_eq.
Qed.

Lemma getStatus_header (API_BASE i t : string) :
  headers (init (api.getStatus API_BASE i t)) !! "X-Session-Token" = Some t.
Proof.
  unfold api.getStatus, api.apiFetch. cbn [init headers].
  apply lookup_union_Some_l. apply lookup_singleton_eq.
Qed.

Lemma step_keeps_token (a : Action) (window : option (gmap string string))
    (s : NegotiationStore) (issued : option string) :
  token_is_issued s issued ->
  token_is_issued (snd (fst (step a window s))) (issued_after a issued).
Proof.
  unfold token_is_issued. intros H.
  destruct a as [o|l|p n|reply f|price message f|id reply f| |]; cbn [step issued_after];
    trivial.
  - destruct reply as [res|err]; [reflexivity | exact H].
  - unfold sendOffer_begin. destruct (session_credentials s) as [[i t]|]; exact H.
  - destruct reply as [res|err]; exact H.
  - exact I.
Qed.

Lemma step_calls_carry_token (a : Action) (window : option (gmap string string))
    (s : NegotiationStore) (issued : option string) (API_BASE : string) :
  token_is_issued s issued ->
  Forall (fun c => match c with
                   | call_sendOffer _ _ _ _ _ =>
                       headers (init (request_of API_BASE c)) !! "X-Session-Token" = issued
                   | call_startNegotiation _ _ _ => True
                   end)
         (snd (step a window s)).
Proof.
  unfold token_is_issued. intros H.
  destruct a as [o|l|p n|reply f|price message f|id reply f| |]; cbn [step snd];
    try (constructor; fail).
  - repeat constructor.
  - unfold sendOffer_begin, session_credentials.
    destruct (sessionId s) as [i|]; [|constructor].
    destruct (sessionToken s) as [t|]; [|constructor].
    destruct (truthy_string i && truthy_string t); [|constructor].
    cbn [snd]. constructor; [|constructor].
    cbn [request_of]. rewrite sendOffer_header. now symmetry.
Qed.

Lemma calls_carry_token (API_BASE : string) (acts : list Action) :
  forall (window : option (gmap string string)) (s : NegotiationStore)
         (issued : option string),
    token_is_issued s issued ->
    Forall (fun ci => match fst ci with
                      | call_sendOffer _ _ _ _ _ =>
                          headers (init (request_of API_BASE (fst ci))) !! "X-Session-Token"
                          = snd ci
                      | call_startNegotiation _ _ _ => True
                      end)
           (calls_of acts window s issued).
Proof.
  induction acts as [|a rest IH]; intros window s issued H; [constructor|].
  cbn [calls_of].
  pose proof (step_keeps_token a window s issued H) as Hnext.
  pose proof (step_calls_carry_token a window s issued API_BASE H) as Hcalls.
  destruct (step a window s) as [[w1 s1] cs]. cbn [fst snd] in Hnext, Hcalls.
  apply Forall_app. split; [|now apply IH].
  apply List.Forall_map. exact Hcalls.
Qed.

(** C7.  [_applyResponse] stores the response's session_token when it
    applies a start response and keeps the stored token on every other
    response.  In every run of the store from its initial state, whatever
    the order of actions and replies, each offer request carries, as its
    X-Session-Token header, the session_token of the start response applied
    last.  The request builders [sendOffer] and [getStatus] of lib/api put
    the token they are given into that header. *)
Theorem C7_requests_carry_issued_token :
  (forall (res : NegotiationResponse.t) (f : Fresh) (s : NegotiationStore),
      sessionToken (_applyResponse res true f s)
      = Some (NegotiationResponse.session_token res)
      /\ sessionToken (_applyResponse res false f s) = sessionToken s)
  /\ (forall (API_BASE : string) (acts : list Action)
             (window : option (gmap string string)),
        Forall (fun ci => match fst ci with
                          | call_sendOffer _ _ _ _ _ =>
                              headers (init (request_of API_BASE (fst ci)))
                                !! "X-Session-Token"
                              = snd ci
                          | call_startNegotiation _ _ _ => True
                          end)
               (calls_of acts window (initial_store window) None))
  /\ (forall (price : number) (message : string) (f : Fresh) (s s1 : NegotiationStore)
             (c : ApiCall),
        sendOffer_begin price message f s = Some (s1, c) ->
        exists i t, sessionToken s = Some t
                    /\ c = call_sendOffer i t price message (language s))
  /\ (forall (API_BASE i t : string) (p : number) (m l : string),
        headers (init (api.sendOffer API_BASE i t p m l)) !! "X-Session-Token" = Some t)
  /\ (forall (API_BASE i t : string),
        headers (init (api.getStatus API_BASE i t)) !! "X-Session-Token" = Some t).
Proof.
  split; [|split; [|split; [|split]]].
  - intros res f s. split; reflexivity.
  - intros API_BASE acts window. apply calls_carry_token. exact I.
  - intros price message f s s1 c. unfold sendOffer_begin, session_credentials.
    destruct (sessionId s) as [i|]; [|discriminate].
    destruct (sessionToken s) as [t|]; [|discriminate].
    destruct (truthy_string i && truthy_string t); [|discriminate].
    intros [= <- <-]. eauto.
  - apply sendOffer_header.
  - apply getStatus_header.
Qed.

(** A run with two sessions: an offer in the first, a reset, an offer that
    goes nowhere, then a second session and an offer in it.  Each offer
    carries the token that was issued last. *)
Example calls_of_two_sessions :
  map (fun ci => (headers (init (request_of "" (fst ci))) !! "X-Session-Token", snd ci))
    (calls_of
       [ AStartSession "saree-01" "Banarasi Silk Saree";
         AStartSettled (Resolved demo_start_response) (demo_fresh "s1" 1000);
         ASendOffer 11000 "" (demo_fresh "m1" 2000);
         AReset;
         ASendOffer 11500 "" (demo_fresh "m2" 3000);
         AOfferSettled "m1" (Rejected demo_error) (demo_fresh "s2" 3500);
         AStartSession "lamp-02" "Brass Lamp";
         AStartSettled (Resolved demo_second_start_response) (demo_fresh "s3" 5000);
         ASendOffer 2000 "" (demo_fresh "m3" 6000) ]
       (Some ∅) (initial_store (Some ∅)) None)
  = [ (None, None); (Some "tok-7f3a", Some "tok-7f3a");
      (None, Some "tok-7f3a"); (Some "tok-91c4", Some "tok-91c4") ].
Proof. reflexivity. Qed.

(** ** The language preference *)

(** C8.  The language menu offers en, hi, ta, te and mr, and nothing else.
    In the browser, for each of them, [setLanguage] followed by
    [getPersistedLanguage] gives that language back (so does the store
    created at the next page load).  With nothing stored under the key, and
    on the server, [getPersistedLanguage] is "en". *)
Theorem C8_languages_and_persistence :
  LanguageToggle.selectable = ["en"; "hi"; "ta"; "te"; "mr"]
  /\ (forall l : Language, In (Language_code l) LanguageToggle.selectable)
  /\ (forall v : string,
        In v LanguageToggle.selectable <->
        exists l : Language, LanguageToggle.Language_of_code v = Some l /\ Language_code l = v)
  /\ (forall (l : Language) (localStorage : gmap string string) (s : NegotiationStore),
        getPersistedLanguage (fst (setLanguage l (Some localStorage) s)) = Language_code l
        /\ language (snd (setLanguage l (Some localStorage) s)) = Language_code l
        /\ language (initial_store (fst (setLanguage l (Some localStorage) s)))
           = Language_code l
        /\ LanguageToggle.onValueChange (Language_code l) (Some localStorage) s
           = setLanguage l (Some localStorage) s)
  /\ (forall localStorage : gmap string string,
        getPersistedLanguage (Some (delete "mol-bhav-lang" localStorage)) = "en")
  /\ getPersistedLanguage (Some ∅) = "en"
  /\ getPersistedLanguage None = "en"
  /\ (forall (l : Language) (s : NegotiationStore),
        getPersistedLanguage (fst (setLanguage l None s)) = "en").
Proof.
  split; [reflexivity|]. split; [|split; [|split; [|split; [|split; [|split]]]]].
  - intros []; cbn; tauto.
  - intros v. split.
    + cbn. intros [<- | [<- | [<- | [<- | [<- | []]]]]]; eexists; split; reflexivity.
    + intros [[] [_ <-]]; cbn; tauto.
  - intros l localStorage s. cbn [setLanguage fst snd initial_store language].
    assert (H : getPersistedLanguage (Some (<["mol-bhav-lang" := Language_code l]> localStorage))
                = Language_code l).
    { unfold getPersistedLanguage. rewrite lookup_insert_eq. now destruct l. }
    repeat split; trivial. now destruct l.
  - intros localStorage. unfold getPersistedLanguage. now rewrite lookup_delete_eq.
  - reflexivity.
  - reflexivity.
  - reflexivity.
Qed.

(** ** Rounding in binary64 arithmetic *)

(** *** Shifting a mantissa *)

Section Mantissa.
Local Open Scope Z_scope.



Lemma dig_bounds (m : positive) : 2 ^ (dig m - 1) <= Zpos m < 2 ^ dig m.
Proof.
  unfold dig. induction m as [m IH|m IH|]; cbn [digits2_pos].
  - rewrite Pos2Z.inj_succ, Pos2Z.inj_xI.
    replace (Z.succ (Zpos (digits2_pos m)) - 1) with (Z.succ (Zpos (digits2_pos m) - 1)) by lia.
    rewrite !Z.pow_succ_r by lia. lia.
  - rewrite Pos2Z.inj_succ. change (Zpos m~0) with (2 * Zpos m).
    replace (Z.succ (Zpos (digits2_pos m)) - 1) with (Z.succ (Zpos (digits2_pos m) - 1)) by lia.
    rewrite !Z.pow_succ_r by lia. lia.
  - cbn. lia.
Qed.


Lemma dig_mono (a b : positive) : Zpos a <= Zpos b -> dig a <= dig b.
Proof.
  intros H. pose proof (dig_bounds a) as [Alo _]. pose proof (dig_bounds b) as [_ Bhi].
  destruct (Z.le_gt_cases (dig a) (dig b)) as [|Hgt]; [assumption|].
  assert (2 ^ dig b <= 2 ^ (dig a - 1)) by (apply Z.pow_le_mono_r; lia). lia.
Qed.






Lemma RNE_range (m n : Z) : RNE m n = m / 2 ^ n \/ RNE m n = m / 2 ^ n + 1.
Proof.
  unfold RNE. destruct (_ <? _); [now left|].
  destruct (_ =? _); [destruct (Z.even _); [now left | now right] | now right].
Qed.






End Mantissa.

(** *** Rounding on a grid *)

Section Grid.
Local Open Scope Z_scope.



Variable L : Z.
Hypothesis HL : 1 <= L.



End Grid.

(** *** What [binary_round_aux] computes, and how the results are ordered *)

Section Link.
Local Open Scope Z_scope.

Lemma Pos_compare_cont_spec (a b : positive) :
  CompareSpec (a = b) (a < b)%positive (b < a)%positive (PosDef.Pos.compare_cont Eq a b).
Proof. exact (Pos.compare_spec a b). Qed.



Variable K : Z.
Hypothesis HK : 1075 <= K.







End Link.

(** *** Subtraction and multiplication *)

Section Ops.
Local Open Scope Z_scope.
Variable K : Z.
Hypothesis HK : 1075 <= K.













End Ops.

(** *** Division *)

Section Div.
Local Open Scope Z_scope.
Variable K : Z.
Hypothesis HK : 1075 <= K.









End Div.

(** *** The position on the meter *)

Section Meter.
Local Open Scope Z_scope.
Variable K : Z.
Hypothesis HK : 2200 <= K.












End Meter.

(** ** The pointer of the fairness meter *)






(** At the opening of a session the current price is the anchor price: the
    pointer stands at 100 and the meter reads "Too Low". *)
Example meter_at_anchor_price :
  FairnessMeter.render
    (NegotiationDrawer.meter_props (ProductActions.drawer_props demo_product demo_store))
    demo_store
  = FairnessMeter.Meter (formatPrice 7799.4) "Too Low" (formatPrice 12999) 100
      (formatPrice 12999).
Proof. reflexivity. Qed.

(** Above the anchor price the pointer stays at 100; well inside the range
    it moves, and the zone follows it. *)
Example meter_positions :
  let at_price (c : number) :=
    let s := _applyResponse
               (NegotiationResponse.mk "0123456789abcdef0123456789abcdef" "tok-7f3a"
                  "" c 12999 responding "concession" "neutral" 2 15 60 None ∅)
               false (demo_fresh "s2" 2000) demo_store in
    let p := NegotiationDrawer.meter_props (ProductActions.drawer_props demo_product s) in
    (FairnessMeter.percentage p s, FairnessMeter.label (FairnessMeter.activeZone p s)) in
  at_price 15000%float = (100%float, "Too Low")
  /\ snd (at_price 12500%float) = "Shop Price"
  /\ snd (at_price 11000%float) = "Fair Deal"
  /\ snd (at_price 9500%float) = "Getting Warmer"
  /\ snd (at_price 8000%float) = "Too Low"
  /\ at_price 5000%float = (0%float, "Too Low").
Proof. repeat split. Qed.

(** ** What every run of the store keeps *)

Lemma with_status_same (m : ChatMessage.t) :
  ChatMessage.with_status (ChatMessage.status m) m = m.
Proof. now destruct m. Qed.

Lemma with_status_twice (a b : Status) (m : ChatMessage.t) :
  ChatMessage.with_status a (ChatMessage.with_status b m) = ChatMessage.with_status a m.
Proof. reflexivity. Qed.

(** A bubble that is in the chat stays at its place through a step that
    neither resets the store nor starts a session; at most its status
    changes, and not to "sending". *)
Lemma step_keeps_bubbles (a : Action) (window : option (gmap string string))
    (s : NegotiationStore) (n : nat) (m : ChatMessage.t) :
  rearms a = false ->
  messages s !! n = Some m ->
  exists st,
    messages (snd (fst (step a window s))) !! n = Some (ChatMessage.with_status st m)
    /\ (ChatMessage.status m <> sending -> st <> sending).
Proof.
  intros Ha Hn.
  assert (Hsame : exists st, messages s !! n = Some (ChatMessage.with_status st m)
                             /\ (ChatMessage.status m <> sending -> st <> sending)).
  { exists (ChatMessage.status m). now rewrite with_status_same. }
  assert (Hmark : forall id st0, st0 <> sending ->
            exists st, mark_status id st0 (messages s) !! n
                       = Some (ChatMessage.with_status st m)
                       /\ (ChatMessage.status m <> sending -> st <> sending)).
  { intros id st0 Hst0. rewrite (mark_status_lookup id st0 _ n m Hn).
    destruct (String.eqb (ChatMessage.id m) id).
    - exists st0. split; trivial.
    - exists (ChatMessage.status m). now rewrite with_status_same. }
  destruct a as [o|l|p q|reply f|price message f|id reply f| |];
    try discriminate Ha; cbn [step fst snd]; trivial.
  - destruct reply as [res|err]; cbn [startSession_settle fst _applyResponse messages
                                      set_isLoading]; trivial.
    destruct Hsame as [st [Hst Hs]]. exists st. split; trivial.
    rewrite lookup_app_l; trivial. now apply lookup_lt_Some in Hn.
  - unfold sendOffer_begin. destruct (session_credentials s) as [[i t]|]; trivial.
    cbn [fst snd set_chat messages].
    destruct Hsame as [st [Hst Hs]]. exists st. split; trivial.
    rewrite lookup_app_l; trivial. now apply lookup_lt_Some in Hn.
  - destruct reply as [res|err]; cbn [sendOffer_settle fst _applyResponse set_chat messages].
    + destruct (Hmark id sent) as [st [Hst Hs]]; [discriminate|].
      exists st. split; trivial. rewrite lookup_app_l; trivial.
      rewrite mark_status_length. now apply lookup_lt_Some in Hn.
    + apply Hmark. discriminate.
Qed.

(** X1.  Within a session the chat is append-only.  Through every run of
    store steps that has neither a reset nor the start of a session, a
    bubble keeps its place, id, actor, text, price, tactic, metadata and
    timestamp; only its status may change, and a bubble that is no longer
    "sending" never becomes "sending" again.  So the chat never shrinks. *)
Theorem chat_is_append_only :
  forall (acts : list Action) (window : option (gmap string string))
         (s : NegotiationStore) (n : nat) (m : ChatMessage.t),
    forallb (fun a => negb (rearms a)) acts = true ->
    messages s !! n = Some m ->
    (exists st,
        messages (snd (run acts window s)) !! n = Some (ChatMessage.with_status st m)
        /\ (ChatMessage.status m <> sending -> st <> sending))
    /\ (length (messages s) <= length (messages (snd (run acts window s))))%nat.
Proof.
  induction acts as [|a rest IH]; intros window s n m Hacts Hn.
  - cbn [run snd]. split; [|lia]. exists (ChatMessage.status m).
    now rewrite with_status_same.
  - cbn [forallb] in Hacts. apply andb_true_iff in Hacts as [Ha Hrest].
    apply negb_true_iff in Ha. cbn [run].
    assert (Hlen : (length (messages s)
                    <= length (messages (snd (fst (step a window s)))))%nat).
    { destruct (Nat.le_gt_cases (length (messages s))
                  (length (messages (snd (fst (step a window s)))))) as [H|H]; trivial.
      exfalso. destruct (messages s) as [|m0 ms] eqn:E; [cbn in H; lia|].
      assert (Hlast : is_Some (messages s !! length ms)).
      { apply lookup_lt_is_Some. rewrite E. cbn. lia. }
      destruct Hlast as [m1 Hm1].
      destruct (step_keeps_bubbles a window s (length ms) m1 Ha Hm1) as [st [Hst _]].
      apply lookup_lt_Some in Hst. cbn [length] in H. lia. }
    destruct (step_keeps_bubbles a window s n m Ha Hn) as [st [Hst Hs]].
    destruct (step a window s) as [[w1 s1] cs]. cbn [fst snd] in *.
    destruct (IH w1 s1 n _ Hrest Hst) as [[st' [Hst' Hs']] Hlen'].
    split; [|lia]. exists st'. rewrite with_status_twice in Hst'. split; trivial.
    intros Hm. apply Hs'. cbn. now apply Hs.
Qed.

Lemma chat_is_append_only_witness :
  let acts := [ ASendOffer 11000 "thoda kam karo" (demo_fresh "m1" 3000);
                AOfferSettled "m1" (Rejected demo_error) (demo_fresh "s2" 3500);
                ASendOffer 11500 "" (demo_fresh "m2" 4000) ] in
  let opening := ChatMessage.mk "k3x9q2ab" seller (Plain "Namaste! Sirf 12999 mein.")
                   12999 (Some "opening_anchor") (Some ∅) 1000 sent in
  messages demo_store !! 0%nat = Some opening
  /\ (exists st,
         messages (snd (run acts (Some ∅) demo_store)) !! 0%nat
         = Some (ChatMessage.with_status st opening)
         /\ (ChatMessage.status opening <> sending -> st <> sending))
  /\ (length (messages demo_store)
      <= length (messages (snd (run acts (Some ∅) demo_store))))%nat.
Proof.
  split; [reflexivity|].
  exact (chat_is_append_only
           [ ASendOffer 11000 "thoda kam karo" (demo_fresh "m1" 3000);
             AOfferSettled "m1" (Rejected demo_error) (demo_fresh "s2" 3500);
             ASendOffer 11500 "" (demo_fresh "m2" 4000) ]
           (Some ∅) demo_store 0%nat _ eq_refl eq_refl).
Defined.

(** The store has a session id, or else neither a state nor a token: a step
    keeps it so. *)
Lemma step_keeps_session_or_nothing (a : Action) (window : option (gmap string string))
    (s : NegotiationStore) :
  (exists i, sessionId s = Some i) \/ (state s = None /\ sessionToken s = None) ->
  (exists i, sessionId (snd (fst (step a window s))) = Some i)
  \/ (state (snd (fst (step a window s))) = None
      /\ sessionToken (snd (fst (step a window s))) = None).
Proof.
  intros H.
  destruct a as [o|l|p q|reply f|price message f|id reply f| |]; cbn [step fst snd]; trivial.
  - cbn [startSession_begin fst sessionId state sessionToken].
    destruct H as [H | [_ H]]; [now left | right; now split].
  - destruct reply as [res|err]; [left; cbn; eauto | exact H].
  - unfold sendOffer_begin. destruct (session_credentials s) as [[i t]|]; exact H.
  - destruct reply as [res|err]; [left; cbn; eauto | exact H].
  - right. split; reflexivity.
Qed.

(** X2.  From the initial store, through every run of store steps in any
    order, a negotiation state or a session token is in the store only
    together with a session id. *)
Theorem state_and_token_need_session_id :
  forall (acts : list Action) (window : option (gmap string string)),
    (exists i, sessionId (snd (run acts window (initial_store window))) = Some i)
    \/ (state (snd (run acts window (initial_store window))) = None
        /\ sessionToken (snd (run acts window (initial_store window))) = None).
Proof.
  intros acts window.
  assert (H : forall acts w s,
            (exists i, sessionId s = Some i) \/ (state s = None /\ sessionToken s = None) ->
            (exists i, sessionId (snd (run acts w s)) = Some i)
            \/ (state (snd (run acts w s)) = None
                /\ sessionToken (snd (run acts w s)) = None)).
  { clear. induction acts as [|a rest IH]; intros w s Hs; [exact Hs|].
    cbn [run]. pose proof (step_keeps_session_or_nothing a w s Hs) as Hstep.
    destruct (step a w s) as [[w1 s1] cs]. now apply IH. }
  apply H. right. split; reflexivity.
Qed.

Lemma truthy_number_not_nan (x : number) :
  truthy_number x = true -> PrimFloat.is_nan x = false.
Proof.
  unfold truthy_number. intros H. apply negb_true_iff, orb_false_iff in H. tauto.
Qed.

Lemma step_keeps_anchor_a_number (a : Action) (window : option (gmap string string))
    (s : NegotiationStore) :
  PrimFloat.is_nan (anchorPrice s) = false ->
  PrimFloat.is_nan (anchorPrice (snd (fst (step a window s)))) = false.
Proof.
  intros H.
  assert (Happly : forall res b f s0,
            PrimFloat.is_nan (anchorPrice s0) = false ->
            PrimFloat.is_nan (anchorPrice (_applyResponse res b f s0)) = false).
  { intros res b f s0 H0. cbn [_applyResponse anchorPrice].
    destruct (truthy_number (NegotiationResponse.anchor_price res)) eqn:E; trivial.
    now apply truthy_number_not_nan. }
  destruct a as [o|l|p q|reply f|price message f|id reply f| |]; cbn [step fst snd]; trivial.
  - destruct reply as [res|err]; cbn [startSession_settle fst]; [now apply Happly | exact H].
  - unfold sendOffer_begin. destruct (session_credentials s) as [[i t]|]; exact H.
  - destruct reply as [res|err]; cbn [sendOffer_settle fst]; [now apply Happly | exact H].
Qed.

(** X3.  The stored anchor price is never NaN: from the initial store,
    through every run of store steps, whatever the responses carry.  A
    response whose anchor_price is NaN or zero leaves the stored one as it
    was. *)
Theorem anchor_price_is_never_nan :
  (forall (acts : list Action) (window : option (gmap string string)),
      PrimFloat.is_nan (anchorPrice (snd (run acts window (initial_store window)))) = false)
  /\ (forall (res : NegotiationResponse.t) (isStart : bool) (f : Fresh)
             (s : NegotiationStore),
        PrimFloat.is_nan (NegotiationResponse.anchor_price res) = true
        \/ PrimFloat.is_zero (NegotiationResponse.anchor_price res) = true ->
        anchorPrice (_applyResponse res isStart f s) = anchorPrice s).
Proof.
  split.
  - intros acts window.
    assert (H : forall acts w s, PrimFloat.is_nan (anchorPrice s) = false ->
                PrimFloat.is_nan (anchorPrice (snd (run acts w s))) = false).
    { clear. induction acts as [|a rest IH]; intros w s Hs; [exact Hs|].
      cbn [run]. pose proof (step_keeps_anchor_a_number a w s Hs) as Hstep.
      destruct (step a w s) as [[w1 s1] cs]. now apply IH. }
    apply H. reflexivity.
  - intros res isStart f s H. cbn [_applyResponse anchorPrice]. unfold truthy_number.
    destruct H as [-> | ->]; [now rewrite orb_true_r | reflexivity].
Qed.

Lemma step_keeps_persisted_language (a : Action) (localStorage : gmap string string)
    (s : NegotiationStore) :
  language s = getPersistedLanguage (Some localStorage) ->
  exists localStorage',
    fst (fst (step a (Some localStorage) s)) = Some localStorage'
    /\ language (snd (fst (step a (Some localStorage) s)))
       = getPersistedLanguage (Some localStorage').
Proof.
  intros H.
  destruct a as [o|l|p q|reply f|price message f|id reply f| |]; cbn [step fst snd];
    try (exists localStorage; split; [reflexivity | exact H]).
  - eexists. split; [reflexivity|]. cbn [language getPersistedLanguage].
    rewrite lookup_insert_eq. now destruct l.
  - exists localStorage. split; [reflexivity|]. destruct reply; exact H.
  - exists localStorage. unfold sendOffer_begin.
    destruct (session_credentials s) as [[i t]|]; split; trivial.
  - exists localStorage. split; [reflexivity|]. destruct reply; exact H.
Qed.

(** X4.  In the browser the store's language is at all times the language
    [localStorage] holds: from the initial store, after every run of store
    steps, [language] equals what [getPersistedLanguage] reads, so a page
    load that follows starts with the same language.  Hence [reset] at such
    a point gives exactly the store a fresh page load would create. *)
Theorem language_is_the_persisted_one :
  forall (acts : list Action) (localStorage : gmap string string),
    exists localStorage',
      fst (run acts (Some localStorage) (initial_store (Some localStorage)))
      = Some localStorage'
      /\ language (snd (run acts (Some localStorage) (initial_store (Some localStorage))))
         = getPersistedLanguage (Some localStorage')
      /\ reset (snd (run acts (Some localStorage) (initial_store (Some localStorage))))
         = initial_store (Some localStorage').
Proof.
  intros acts localStorage.
  assert (H : forall acts ls s,
            language s = getPersistedLanguage (Some ls) ->
            exists ls', fst (run acts (Some ls) s) = Some ls'
                        /\ language (snd (run acts (Some ls) s))
                           = getPersistedLanguage (Some ls')).
  { clear. induction acts as [|a rest IH]; intros ls s Hs; [now exists ls|].
    cbn [run]. destruct (step_keeps_persisted_language a ls s Hs) as [ls1 [Hw Hl]].
    destruct (step a (Some ls) s) as [[w1 s1] cs]. cbn [fst snd] in Hw, Hl. subst w1.
    now apply IH. }
  destruct (H acts localStorage (initial_store (Some localStorage)) eq_refl)
    as [ls' [Hw Hl]].
  exists ls'. repeat split; trivial.
  unfold reset. rewrite Hl. reflexivity.
Qed.

(** X5.  The language preference is touched by [setLanguage] alone: through
    every run of store steps without it (resets and new sessions included)
    the store's language and the contents of [localStorage] stay as they
    were, and every call the run makes carries that language. *)
Theorem language_survives_everything_else :
  forall (acts : list Action) (window : option (gmap string string))
         (s : NegotiationStore) (issued : option string),
    forallb (fun a => match a with ASetLanguage _ => false | _ => true end) acts = true ->
    run acts window s = (window, snd (run acts window s))
    /\ language (snd (run acts window s)) = language s
    /\ Forall (fun ci => match fst ci with
                         | call_startNegotiation _ _ l => l = language s
                         | call_sendOffer _ _ _ _ l => l = language s
                         end)
              (calls_of acts window s issued).
Proof.
  induction acts as [|a rest IH]; intros window s issued Hacts.
  - repeat split. constructor.
  - cbn [forallb] in Hacts. apply andb_true_iff in Hacts as [Ha Hrest].
    cbn [run calls_of].
    assert (Hstep : fst (fst (step a window s)) = window
                    /\ language (snd (fst (step a window s))) = language s
                    /\ Forall (fun c => match c with
                                        | call_startNegotiation _ _ l => l = language s
                                        | call_sendOffer _ _ _ _ l => l = language s
                                        end) (snd (step a window s))).
    { destruct a as [o|l|p q|reply f|price message f|id reply f| |];
        try discriminate Ha; cbn [step fst snd]; repeat split; try constructor;
        try (destruct reply; reflexivity); try constructor.
      - unfold sendOffer_begin. now destruct (session_credentials s) as [[i t]|].
      - unfold sendOffer_begin. now destruct (session_credentials s) as [[i t]|].
      - unfold sendOffer_begin. destruct (session_credentials s) as [[i t]|];
          repeat constructor. }
    destruct Hstep as [Hw [Hl Hc]].
    destruct (step a window s) as [[w1 s1] cs]. cbn [fst snd] in Hw, Hl, Hc. subst w1.
    destruct (IH window s1 (issued_after a issued) Hrest) as [Hrun [Hlang Hcalls]].
    rewrite Hl in Hlang, Hcalls. repeat split; trivial.
    apply Forall_app. split; [|exact Hcalls].
    apply List.Forall_map. exact Hc.
Qed.

Lemma language_survives_everything_else_witness :
  let acts := [ AStartSession "saree-01" "Banarasi Silk Saree";
                AStartSettled (Resolved demo_start_response) (demo_fresh "s1" 1000);
                ASendOffer 11000 "" (demo_fresh "m1" 2000);
                AReset ] in
  let window := Some ({[ "mol-bhav-lang" := "ta" ]} : gmap string string) in
  language (snd (run acts window (initial_store window))) = "ta".
Proof.
  exact (proj1 (proj2 (language_survives_everything_else
                         [ AStartSession "saree-01" "Banarasi Silk Saree";
                           AStartSettled (Resolved demo_start_response)
                             (demo_fresh "s1" 1000);
                           ASendOffer 11000 "" (demo_fresh "m1" 2000);
                           AReset ]
                         (Some ({[ "mol-bhav-lang" := "ta" ]} : gmap string string))
                         (initial_store
                            (Some ({[ "mol-bhav-lang" := "ta" ]} : gmap string string)))
                         None eq_refl))).
Defined.

(** ** Opening and closing a session *)

(** X6.  What "Negotiate Price" leaves when its start call is answered and
    nothing else settles while the call is pending.  One start call is made,
    with an empty buyer name and the store's language.  The store ends with
    the drawer open, the chat holding the seller's opening bubble alone,
    session id, token, state, current price, agreed price, tactic, round and
    round limit from the response, product id and name from the product,
    nothing loading and [flounceUsed] false.  The anchor price is the
    response's when that is neither 0 nor NaN and the earlier store's
    otherwise, and the language is kept; no other part of the earlier store
    is left.  A reply to an earlier offer that settles while the start call
    is pending does add its bubbles, so the chat then holds more than the
    opening bubble. *)
Theorem negotiate_start_outcome :
  (forall (product : Product.t) (res : NegotiationResponse.t) (f : Fresh)
          (s : NegotiationStore),
      ProductActions.handleNegotiate product (Resolved res) f s
      = ({| sessionId := Some (NegotiationResponse.session_id res);
            sessionToken := Some (NegotiationResponse.session_token res);
            productId := Some (Product.id product);
            productName := Product.name product;
            anchorPrice := if truthy_number (NegotiationResponse.anchor_price res)
                           then NegotiationResponse.anchor_price res else anchorPrice s;
            currentPrice := NegotiationResponse.current_price res;
            agreedPrice := NegotiationResponse.agreed_price res;
            state := Some (NegotiationResponse.state res);
            tactic := NegotiationResponse.tactic res;
            round := NegotiationResponse.round res;
            maxRounds := NegotiationResponse.max_rounds res;
            messages :=
              [ChatMessage.mk (fresh_id f) seller (Plain (NegotiationResponse.message res))
                 (NegotiationResponse.current_price res)
                 (Some (NegotiationResponse.tactic res))
                 (Some (NegotiationResponse.metadata res)) (fresh_now f) sent];
            isLoading := false;
            language := language s;
            flounceUsed := false;
            drawerOpen := true |},
         [call_startNegotiation (Product.id product) "" (language s)], Returned))
  /\ (forall (product : Product.t) (res : NegotiationResponse.t) (f : Fresh)
             (s1 s2 : NegotiationStore),
        language s1 = language s2 ->
        anchorPrice s1 = anchorPrice s2
        \/ truthy_number (NegotiationResponse.anchor_price res) = true ->
        ProductActions.handleNegotiate product (Resolved res) f s1
        = ProductActions.handleNegotiate product (Resolved res) f s2)
  /\ (forall (product : Product.t) (res late : NegotiationResponse.t) (f f1 : Fresh)
             (id : string) (window : option (gmap string string)) (s : NegotiationStore),
        length
          (messages
             (snd (run [ ASetDrawerOpen true;
                         AStartSession (Product.id product) (Product.name product);
                         AOfferSettled id (Resolved late) f1;
                         AStartSettled (Resolved res) f ] window s)))
        = 2%nat).
Proof.
  assert (H : forall (product : Product.t) (res : NegotiationResponse.t) (f : Fresh)
                     (s : NegotiationStore),
             ProductActions.handleNegotiate product (Resolved res) f s
             = ({| sessionId := Some (NegotiationResponse.session_id res);
                   sessionToken := Some (NegotiationResponse.session_token res);
                   productId := Some (Product.id product);
                   productName := Product.name product;
                   anchorPrice := if truthy_number (NegotiationResponse.anchor_price res)
                                  then NegotiationResponse.anchor_price res
                                  else anchorPrice s;
                   currentPrice := NegotiationResponse.current_price res;
                   agreedPrice := NegotiationResponse.agreed_price res;
                   state := Some (NegotiationResponse.state res);
                   tactic := NegotiationResponse.tactic res;
                   round := NegotiationResponse.round res;
                   maxRounds := NegotiationResponse.max_rounds res;
                   messages :=
                     [ChatMessage.mk (fresh_id f) seller
                        (Plain (NegotiationResponse.message res))
                        (NegotiationResponse.current_price res)
                        (Some (NegotiationResponse.tactic res))
                        (Some (NegotiationResponse.metadata res)) (fresh_now f) sent];
                   isLoading := false;
                   language := language s;
                   flounceUsed := false;
                   drawerOpen := true |},
                [call_startNegotiation (Product.id product) "" (language s)], Returned))
    by reflexivity.
  split; [exact H|]. split.
  - intros product res f s1 s2 Hl Ha. rewrite !H, Hl.
    destruct Ha as [-> | ->]; reflexivity.
  - intros. reflexivity.
Qed.

Lemma negotiate_start_outcome_witness :
  ProductActions.handleNegotiate demo_product (Resolved demo_second_start_response)
    (demo_fresh "s9" 9000) (initial_store (Some ∅))
  = ProductActions.handleNegotiate demo_product (Resolved demo_second_start_response)
      (demo_fresh "s9" 9000) demo_store.
Proof.
  apply (proj1 (proj2 negotiate_start_outcome)); [reflexivity | right; reflexivity].
Defined.

(** X7.  A start that fails leaves the old session's credentials behind.
    The error is thrown on, the chat is empty, state and agreed price are
    cleared and nothing is loading, but session id, session token, prices
    and round are still those from before the attempt; so an offer made next
    goes, if those were set, to the old session. *)
Theorem failed_start_keeps_old_credentials :
  forall (product : Product.t) (err : ApiError) (f : Fresh) (s : NegotiationStore),
    exists s',
      ProductActions.handleNegotiate product (Rejected err) f s
      = (s', [call_startNegotiation (Product.id product) "" (language s)], Threw err)
      /\ messages s' = [] /\ state s' = None /\ agreedPrice s' = None
      /\ isLoading s' = false /\ flounceUsed s' = false /\ drawerOpen s' = true
      /\ sessionId s' = sessionId s /\ sessionToken s' = sessionToken s
      /\ currentPrice s' = currentPrice s /\ anchorPrice s' = anchorPrice s
      /\ round s' = round s
      /\ (forall (price : number) (message : string) (f1 : Fresh),
            snd <$> sendOffer_begin price message f1 s'
            = snd <$> sendOffer_begin price message f1 s).
Proof.
  intros product err f s. eexists. split; [reflexivity|]. repeat split.
  intros price message f1. unfold sendOffer_begin, session_credentials.
  cbn [set_isLoading setDrawerOpen startSession_begin fst snd sessionId sessionToken
       language].
  destruct (sessionId s) as [i|]; trivial. destruct (sessionToken s) as [t|]; trivial.
  destruct (truthy_string i && truthy_string t); reflexivity.
Qed.

(** X8.  Every close of the drawer that is not intercepted ends the
    session.  With the drawer mounted as the product page mounts it, a close
    that the walk-away guard lets through, and "No, I'm leaving" in the
    walk-away dialog, both leave the store reset: drawer closed, no session
    id, token, state or chat, and an offer made from there does nothing.
    An intercepted close changes nothing in the store, and opening the
    drawer only sets [drawerOpen]. *)
Theorem closing_the_drawer_ends_the_session :
  forall (product : Product.t) (showFlounce : bool) (s : NegotiationStore),
    (NegotiationDrawer.intercepts false s = false ->
     NegotiationDrawer.handleOpenChange (ProductActions.drawer_props product s)
       false showFlounce s
     = (showFlounce, reset s))
    /\ (NegotiationDrawer.intercepts false s = true ->
        NegotiationDrawer.handleOpenChange (ProductActions.drawer_props product s)
          false showFlounce s
        = (true, s))
    /\ NegotiationDrawer.handleOpenChange (ProductActions.drawer_props product s)
         true showFlounce s
       = (showFlounce, setDrawerOpen true s)
    /\ NegotiationDrawer.handleFlouceLeave (ProductActions.drawer_props product s)
         showFlounce s
       = (false, reset s)
    /\ drawerOpen (reset s) = false /\ sessionId (reset s) = None
    /\ sessionToken (reset s) = None /\ state (reset s) = None
    /\ messages (reset s) = []
    /\ (forall (price : number) (message : string)
               (reply : Settled NegotiationResponse.t) (f f' : Fresh),
          sendOffer price message reply f f' (reset s) = (reset s, [], Returned)).
Proof.
  intros product showFlounce s. unfold NegotiationDrawer.handleOpenChange.
  split; [intros ->; reflexivity|]. split; [intros ->; reflexivity|].
  repeat split.
Qed.

(** ** Offers *)

(** X9.  [sendOffer] makes its call exactly when the store holds a session
    id and a session token that are both non-empty strings; an empty string
    stops it like null does.  The call then carries that id and token, the
    price and message as given, and the store's language. *)
Theorem offer_needs_non_empty_credentials :
  forall (price : number) (message : string) (f : Fresh) (s : NegotiationStore),
    (forall (s1 : NegotiationStore) (c : ApiCall),
        sendOffer_begin price message f s = Some (s1, c) ->
        exists i t, sessionId s = Some i /\ sessionToken s = Some t
                    /\ i <> "" /\ t <> ""
                    /\ c = call_sendOffer i t price message (language s))
    /\ (forall i t : string,
          sessionId s = Some i -> sessionToken s = Some t -> i <> "" -> t <> "" ->
          exists s1, sendOffer_begin price message f s
                     = Some (s1, call_sendOffer i t price message (language s)))
    /\ (sessionId s = Some "" \/ sessionToken s = Some "" ->
        sendOffer_begin price message f s = None).
Proof.
  intros price message f s. unfold sendOffer_begin, session_credentials.
  split; [|split].
  - intros s1 c. destruct (sessionId s) as [i|]; [|discriminate].
    destruct (sessionToken s) as [t|]; [|discriminate].
    destruct i as [|a i], t as [|b t]; try discriminate.
    cbn [truthy_string andb]. intros [= <- <-]. exists (String a i), (String b t).
    repeat split; discriminate.
  - intros i t -> -> Hi Ht. destruct i as [|a i], t as [|b t]; try congruence.
    cbn [truthy_string andb]. eauto.
  - intros [-> | ->]; [now destruct (sessionToken s)|].
    destruct (sessionId s) as [i|]; trivial. cbn [truthy_string].
    now rewrite andb_false_r.
Qed.

(** X10.  An offer that the API answers.  In a store that holds a session,
    with a bubble id that is new to the chat, [sendOffer] returns normally,
    makes one call, and leaves the chat grown by two bubbles: the buyer's,
    now "sent", and the seller's reply.  State, tactic, round, maxRounds,
    current and agreed price and the session id become the response's; the
    session token, the walk-away flag, the language and the drawer stay;
    nothing is loading. *)
Theorem answered_offer_appends_two_bubbles :
  forall (s : NegotiationStore) (i t : string) (price : number) (message : string)
         (res : NegotiationResponse.t) (f f' : Fresh),
    session_credentials s = Some (i, t) ->
    Forall (fun m => ChatMessage.id m <> fresh_id f) (messages s) ->
    exists s',
      sendOffer price message (Resolved res) f f' s
      = (s', [call_sendOffer i t price message (language s)], Returned)
      /\ messages s'
         = messages s
           ++ [ ChatMessage.mk (fresh_id f) buyer
                  (if truthy_string message then Plain message else Rupees price)
                  price None None (fresh_now f) sent;
                ChatMessage.mk (fresh_id f') seller
                  (Plain (NegotiationResponse.message res))
                  (NegotiationResponse.current_price res)
                  (Some (NegotiationResponse.tactic res))
                  (Some (NegotiationResponse.metadata res)) (fresh_now f') sent ]
      /\ state s' = Some (NegotiationResponse.state res)
      /\ tactic s' = NegotiationResponse.tactic res
      /\ round s' = NegotiationResponse.round res
      /\ maxRounds s' = NegotiationResponse.max_rounds res
      /\ currentPrice s' = NegotiationResponse.current_price res
      /\ agreedPrice s' = NegotiationResponse.agreed_price res
      /\ sessionId s' = Some (NegotiationResponse.session_id res)
      /\ sessionToken s' = sessionToken s
      /\ flounceUsed s' = flounceUsed s /\ language s' = language s
      /\ drawerOpen s' = drawerOpen s /\ isLoading s' = false.
Proof.
  intros s i t price message res f f' Hcred Hfresh.
  unfold sendOffer, sendOffer_begin. rewrite Hcred. cbn [sendOffer_settle].
  eexists. split; [reflexivity|].
  cbn [_applyResponse set_chat messages state tactic round maxRounds currentPrice
       agreedPrice sessionId sessionToken flounceUsed language drawerOpen isLoading].
  repeat split.
  unfold mark_status. rewrite map_app. fold (mark_status (fresh_id f) sent (messages s)).
  rewrite (mark_status_fresh _ _ _ Hfresh). cbn [map ChatMessage.id].
  rewrite String.eqb_refl. now rewrite <- app_assoc.
Qed.

Lemma answered_offer_appends_two_bubbles_witness :
  session_credentials demo_store = Some ("0123456789abcdef0123456789abcdef", "tok-7f3a")
  /\ Forall (fun m => ChatMessage.id m <> fresh_id (demo_fresh "m1" 3000))
       (messages demo_store)
  /\ exists s',
       sendOffer 12999 "" (Resolved demo_agreed_response) (demo_fresh "m1" 3000)
         (demo_fresh "s2" 3500) demo_store
       = (s',
          [call_sendOffer "0123456789abcdef0123456789abcdef" "tok-7f3a" 12999 ""
             (language demo_store)],
          Returned)
       /\ length (messages s') = 3%nat
       /\ state s' = Some agreed.
Proof.
  assert (Hfresh : Forall (fun m => ChatMessage.id m <> fresh_id (demo_fresh "m1" 3000))
                     (messages demo_store)) by (repeat constructor; discriminate).
  split; [reflexivity|]. split; [exact Hfresh|].
  destruct (answered_offer_appends_two_bubbles demo_store
              "0123456789abcdef0123456789abcdef" "tok-7f3a" 12999 ""
              demo_agreed_response (demo_fresh "m1" 3000) (demo_fresh "s2" 3500)
              eq_refl Hfresh) as [s' [Hrun [Hmsgs [Hstate _]]]].
  exists s'. split; [exact Hrun|]. split; [now rewrite Hmsgs | exact Hstate].
Defined.

(** ** The price form *)

(** X11.  What a submitted price leads to, when the parsed price passes the
    guard.  With a session: the offer call goes out with the parsed price
    and the trimmed message; when it is answered the form is emptied and the
    message field hidden, and no toast is shown; when it is rejected the
    form keeps what was typed and one toast is shown, chosen by the HTTP
    status (429, 410 or 404) or else the error's message.  Without a
    session nothing is sent, and yet the form is emptied. *)
Theorem submit_outcomes :
  forall (l : PriceInput.Local) (s : NegotiationStore) (f f' : Fresh),
    let price := parseFloat (remove_commas (PriceInput.priceStr l)) in
    isNaN price || (price <=? 0)%float = false ->
    (forall (i t : string) (res : NegotiationResponse.t),
        session_credentials s = Some (i, t) ->
        exists s',
          PriceInput.handleSubmit (Resolved res) f f' l s
          = ({| PriceInput.priceStr := ""; PriceInput.message := "";
                PriceInput.showMessage := false |},
             s',
             [ApiRequest
                (call_sendOffer i t price (trim (PriceInput.message l)) (language s))]))
    /\ (forall (i t : string) (err : ApiError),
          session_credentials s = Some (i, t) ->
          exists s',
            PriceInput.handleSubmit (Rejected err) f f' l s
            = (l, s',
               [ApiRequest
                  (call_sendOffer i t price (trim (PriceInput.message l)) (language s));
                ToastError
                  (match error_status err with
                   | Some 429%Z => "Thoda ruko! Too fast 😅"
                   | Some 410%Z | Some 404%Z => "Session expired. Start a new negotiation."
                   | _ => if truthy_string (error_message err) then error_message err
                          else "Something went wrong"
                   end)]))
    /\ (forall reply : Settled NegotiationResponse.t,
          session_credentials s = None ->
          PriceInput.handleSubmit reply f f' l s
          = ({| PriceInput.priceStr := ""; PriceInput.message := "";
                PriceInput.showMessage := false |}, s, [])).
Proof.
  intros l s f f' price Hok. unfold PriceInput.handleSubmit. fold price. rewrite Hok.
  unfold sendOffer, sendOffer_begin. split; [|split].
  - intros i t res ->. eexists. reflexivity.
  - intros i t err ->. eexists. reflexivity.
  - intros reply ->. reflexivity.
Qed.

Lemma submit_outcomes_witness :
  let form := {| PriceInput.priceStr := "11,500"; PriceInput.message := "  thoda kam  ";
                 PriceInput.showMessage := true |} in
  isNaN (parseFloat (remove_commas (PriceInput.priceStr form)))
  || (parseFloat (remove_commas (PriceInput.priceStr form)) <=? 0)%float = false
  /\ exists s',
       PriceInput.handleSubmit
         (Rejected {| error_message := "Too Many Requests"; error_status := Some 429%Z |})
         (demo_fresh "m1" 3000) (demo_fresh "s2" 3500) form demo_store
       = (form, s',
          [ApiRequest
             (call_sendOffer "0123456789abcdef0123456789abcdef" "tok-7f3a" 11500
                "thoda kam" "en");
           ToastError "Thoda ruko! Too fast 😅"]).
Proof.
  split; [reflexivity|].
  exact (proj1 (proj2 (submit_outcomes
                         {| PriceInput.priceStr := "11,500";
                            PriceInput.message := "  thoda kam  ";
                            PriceInput.showMessage := true |}
                         demo_store (demo_fresh "m1" 3000) (demo_fresh "s2" 3500)
                         eq_refl))
           "0123456789abcdef0123456789abcdef" "tok-7f3a"
           {| error_message := "Too Many Requests"; error_status := Some 429%Z |}
           eq_refl).
Defined.

Lemma trim_white_space (m : string) : all_white_space m = true -> trim m = "".
Proof.
  unfold trim, all_white_space. now destruct (trimStart m).
Qed.

(** X12.  A message of white space only counts as no message: the offer
    call carries the empty string, and the buyer's bubble shows the rupee
    amount in place of a text. *)
Theorem blank_message_shows_the_amount :
  forall (l : PriceInput.Local) (s : NegotiationStore) (i t : string)
         (reply : Settled NegotiationResponse.t) (f f' : Fresh),
    let price := parseFloat (remove_commas (PriceInput.priceStr l)) in
    all_white_space (PriceInput.message l) = true ->
    isNaN price || (price <=? 0)%float = false ->
    session_credentials s = Some (i, t) ->
    exists l' s' rest bubble,
      PriceInput.handleSubmit reply f f' l s
      = (l', s', ApiRequest (call_sendOffer i t price "" (language s)) :: rest)
      /\ messages s' !! length (messages s) = Some bubble
      /\ ChatMessage.id bubble = fresh_id f
      /\ ChatMessage.actor bubble = buyer
      /\ ChatMessage.text bubble = Rupees price
      /\ ChatMessage.price bubble = price.
Proof.
  intros l s i t reply f f' price Hblank Hok Hcred.
  unfold PriceInput.handleSubmit. fold price. rewrite Hok, (trim_white_space _ Hblank).
  unfold sendOffer, sendOffer_begin. rewrite Hcred. cbn [truthy_string].
  assert (Hat : forall (ms : list ChatMessage.t) (b : ChatMessage.t) (st : Status),
            mark_status (fresh_id f) st (ms ++ [b]) !! length ms
            = Some (if String.eqb (ChatMessage.id b) (fresh_id f)
                    then ChatMessage.with_status st b else b)).
  { intros ms b st. apply mark_status_lookup. rewrite lookup_app_r by lia.
    now rewrite Nat.sub_diag. }
  destruct reply as [res|err]; cbn [sendOffer_settle]; do 4 eexists;
    (split; [reflexivity|]);
    cbn [_applyResponse set_chat messages].
  - rewrite lookup_app_l by (rewrite mark_status_length, length_app; cbn; lia).
    rewrite Hat. cbn [ChatMessage.id]. rewrite String.eqb_refl. repeat split.
  - rewrite Hat. cbn [ChatMessage.id]. rewrite String.eqb_refl. repeat split.
Qed.

Lemma blank_message_shows_the_amount_witness :
  let form := {| PriceInput.priceStr := "11500"; PriceInput.message := "   ";
                 PriceInput.showMessage := true |} in
  all_white_space (PriceInput.message form) = true
  /\ exists l' s' rest bubble,
       PriceInput.handleSubmit (Rejected demo_error) (demo_fresh "m1" 3000)
         (demo_fresh "s2" 3500) form demo_store
       = (l', s',
          ApiRequest
            (call_sendOffer "0123456789abcdef0123456789abcdef" "tok-7f3a"
               (parseFloat (remove_commas (PriceInput.priceStr form))) ""
               (language demo_store)) :: rest)
       /\ messages s' !! length (messages demo_store) = Some bubble
       /\ ChatMessage.id bubble = fresh_id (demo_fresh "m1" 3000)
       /\ ChatMessage.actor bubble = buyer
       /\ ChatMessage.text bubble
          = Rupees (parseFloat (remove_commas (PriceInput.priceStr form)))
       /\ ChatMessage.price bubble = parseFloat (remove_commas (PriceInput.priceStr form)).
Proof.
  split; [reflexivity|].
  exact (blank_message_shows_the_amount
           {| PriceInput.priceStr := "11500"; PriceInput.message := "   ";
              PriceInput.showMessage := true |}
           demo_store "0123456789abcdef0123456789abcdef" "tok-7f3a"
           (Rejected demo_error) (demo_fresh "m1" 3000) (demo_fresh "s2" 3500)
           eq_refl eq_refl eq_refl).
Defined.

Lemma step_keeps_loading (a : Action) (window : option (gmap string string))
    (s : NegotiationStore) :
  ends_loading a = false -> isLoading s = true ->
  isLoading (snd (fst (step a window s))) = true.
Proof.
  intros Ha Hs. destruct a as [o|l|p n|reply f|price message f|id reply f| |];
    try discriminate Ha; cbn [step];
    try solve [exact Hs | reflexivity | unfold setLanguage; exact Hs].
  unfold sendOffer_begin.
  destruct (session_credentials s) as [[i t]|]; [reflexivity | exact Hs].
Qed.

Lemma run_keeps_loading (acts : list Action) (window : option (gmap string string))
    (s : NegotiationStore) :
  forallb (fun a => negb (ends_loading a)) acts = true -> isLoading s = true ->
  isLoading (snd (run acts window s)) = true.
Proof.
  revert window s. induction acts as [|a acts IH]; intros window s Hacts Hs; [exact Hs|].
  cbn [forallb] in Hacts. apply andb_true_iff in Hacts as [Ha Hacts].
  apply negb_true_iff in Ha. cbn [run].
  pose proof (step_keeps_loading a window s Ha Hs) as Hstep.
  destruct (step a window s) as [[w1 s1] cs]. now apply IH.
Qed.

Lemma loading_locks_the_form (s : NegotiationStore) :
  isLoading s = true ->
  forall (l : PriceInput.Local) (ev : PriceInput.Event)
         (reply : Settled NegotiationResponse.t) (f1 f2 : Fresh),
    PriceInput.dispatch ev reply f1 f2 l s = (l, s, []).
Proof.
  intros Hs l ev reply f1 f2. unfold PriceInput.dispatch.
  cbn [PriceInput.render PriceInput.message_input PriceInput.submit_button
       PriceInput.price_input PriceInput.toggle_button].
  unfold PriceInput.disabled. rewrite Hs. cbn [orb].
  destruct ev; trivial. destruct (PriceInput.showMessage l); reflexivity.
Qed.

(** X13.  From the call of an offer until the first call settles, the price
    form is locked.  Right after [sendOffer] has appended the buyer's bubble
    and made its call the store is loading, and it stays loading through
    every run of store steps in which no call settles and the store is not
    reset; all that time every control of the price form is disabled, no
    form event changes the form or the store or sends a request, and the
    avatar is "thinking" (or "deal" in an agreed session).  [isLoading] is a
    single flag: whichever call settles first, an offer's or a start's,
    answered or rejected, ends loading.  So with two calls pending the form
    is unlocked by the first reply while the other offer's bubble is still
    "sending", as when "Accept Deal!" is rejected while an offer from the
    form is pending. *)
Theorem offer_in_flight_locks_the_form :
  forall (price : number) (message : string) (f : Fresh)
         (s pending : NegotiationStore) (c : ApiCall),
    sendOffer_begin price message f s = Some (pending, c) ->
    isLoading pending = true
    /\ (forall (acts : list Action) (window : option (gmap string string)),
          forallb (fun a => negb (ends_loading a)) acts = true ->
          let s1 := snd (run acts window pending) in
          isLoading s1 = true
          /\ PriceInput.disabled s1 = true
          /\ (forall (l : PriceInput.Local) (ev : PriceInput.Event)
                     (reply : Settled NegotiationResponse.t) (f1 f2 : Fresh),
                PriceInput.dispatch ev reply f1 f2 l s1 = (l, s1, []))
          /\ BazaarBotAvatar.avatarState s1
             = match state s1 with
               | Some agreed => BazaarBotAvatar.deal
               | _ => BazaarBotAvatar.thinking
               end)
    /\ (forall (s1 : NegotiationStore) (id : string)
               (reply : Settled NegotiationResponse.t) (f' : Fresh),
          isLoading (fst (sendOffer_settle id reply f' s1)) = false
          /\ isLoading (fst (startSession_settle reply f' s1)) = false
          /\ BazaarBotAvatar.avatarState (fst (sendOffer_settle id reply f' s1))
             <> BazaarBotAvatar.thinking)
    /\ (let two_pending :=
          snd (run [ ASendOffer 11000 "" (demo_fresh "m1" 3000);
                     ASendOffer (DigitalFlounce.walkAwayPrice demo_store)
                       "Walk-away deal accepted" (demo_fresh "m2" 3500);
                     AOfferSettled "m2" (Rejected demo_error) (demo_fresh "s3" 4000) ]
                 None demo_store) in
        map (fun m => (ChatMessage.id m, ChatMessage.status m)) (messages two_pending)
        = [("k3x9q2ab", sent); ("m1", sending); ("m2", error)]
        /\ isLoading two_pending = false
        /\ PriceInput.disabled two_pending = false).
Proof.
  intros price message f s pending c Hbegin.
  assert (Hp : isLoading pending = true).
  { unfold sendOffer_begin in Hbegin.
    destruct (session_credentials s) as [[i t]|]; [|discriminate].
    now injection Hbegin as <- _. }
  split; [exact Hp|]. split; [|split].
  - intros acts window Hacts s1.
    assert (H1 : isLoading s1 = true) by now apply run_keeps_loading.
    split; [exact H1|]. split; [|split].
    + unfold PriceInput.disabled. now rewrite H1.
    + now apply loading_locks_the_form.
    + unfold BazaarBotAvatar.avatarState, BazaarBotAvatar.deriveAvatarState.
      rewrite H1. now destruct (state s1) as [[]|].
  - intros s1 id reply f'.
    unfold BazaarBotAvatar.avatarState, BazaarBotAvatar.deriveAvatarState.
    destruct reply as [res|err];
      cbn [sendOffer_settle startSession_settle fst _applyResponse set_chat set_isLoading
           isLoading state];
      (split; [reflexivity|]); (split; [reflexivity|]).
    + destruct (NegotiationResponse.state res);
        repeat match goal with |- context [if ?b then _ else _] => destruct b end;
        discriminate.
    + destruct (state s1) as [[]|];
        repeat match goal with |- context [if ?b then _ else _] => destruct b end;
        discriminate.
  - repeat split.
Qed.

Lemma offer_in_flight_locks_the_form_witness :
  exists pending c,
    sendOffer_begin 11000 "" (demo_fresh "m1" 3000) demo_store = Some (pending, c)
    /\ isLoading pending = true
    /\ PriceInput.disabled
         (snd (run [ASetLanguage ta; ASetDrawerOpen false] (Some ∅) pending)) = true.
Proof.
  do 2 eexists. split; [reflexivity|].
  pose proof (offer_in_flight_locks_the_form 11000 "" (demo_fresh "m1" 3000) demo_store
                _ _ eq_refl) as H.
  split; [exact (proj1 H)|].
  exact (proj1 (proj2 (proj1 (proj2 H) [ASetLanguage ta; ASetDrawerOpen false] (Some ∅)
                         eq_refl))).
Defined.

(** ** The walk-away dialog, accepted *)

(** X14.  "Accept Deal!" closes the walk-away dialog whatever the API says.
    With a session it sends one offer, at the walk-away price and with the
    message "Walk-away deal accepted".  When the offer is rejected, one
    toast shows the error's message, or "Failed to accept deal" when that is
    empty, and the store's session fields stay as they were; when it is
    answered no toast is shown. *)
Theorem accept_deal_outcomes :
  forall (s : NegotiationStore) (i t : string) (f f' : Fresh) (showFlounce : bool),
    session_credentials s = Some (i, t) ->
    let call := call_sendOffer i t (DigitalFlounce.walkAwayPrice s)
                  "Walk-away deal accepted" (language s) in
    (forall res : NegotiationResponse.t,
        exists s',
          NegotiationDrawer.acceptDeal (Resolved res) f f' showFlounce s
          = (false, s', [ApiRequest call])
          /\ flounceUsed s' = true
          /\ currentPrice s' = NegotiationResponse.current_price res)
    /\ (forall err : ApiError,
          exists s',
            NegotiationDrawer.acceptDeal (Rejected err) f f' showFlounce s
            = (false, s',
               [ApiRequest call;
                ToastError (if truthy_string (error_message err) then error_message err
                            else "Failed to accept deal")])
            /\ flounceUsed s' = flounceUsed s /\ isLoading s' = false
            /\ state s' = state s /\ currentPrice s' = currentPrice s
            /\ sessionId s' = sessionId s /\ sessionToken s' = sessionToken s).
Proof.
  intros s i t f f' showFlounce Hcred call. subst call.
  unfold NegotiationDrawer.acceptDeal, DigitalFlounce.handleAcceptDeal, sendOffer,
    sendOffer_begin. rewrite Hcred. split.
  - intros res. eexists. split; [reflexivity|]. split; reflexivity.
  - intros err. eexists. split; [reflexivity|]. repeat split.
Qed.

Lemma accept_deal_outcomes_witness :
  session_credentials demo_store = Some ("0123456789abcdef0123456789abcdef", "tok-7f3a")
  /\ exists s',
       NegotiationDrawer.acceptDeal
         (Rejected {| error_message := ""; error_status := None |})
         (demo_fresh "m1" 3000) (demo_fresh "s2" 3500) true demo_store
       = (false, s',
          [ApiRequest
             (call_sendOffer "0123456789abcdef0123456789abcdef" "tok-7f3a" 12349
                "Walk-away deal accepted" "en");
           ToastError "Failed to accept deal"]).
Proof.
  split; [reflexivity|].
  destruct (proj2 (accept_deal_outcomes demo_store "0123456789abcdef0123456789abcdef"
                     "tok-7f3a" (demo_fresh "m1" 3000) (demo_fresh "s2" 3500) true
                     eq_refl)
              {| error_message := ""; error_status := None |}) as [s' [H _]].
  exists s'. exact H.
Defined.

(** ** The celebration *)

(** X15.  [isDeal], the condition that fires the celebration, holds exactly
    when the store's state is agreed and an agreed price is there.  After a
    response is applied that is so for a response with state agreed and a
    non-null agreed_price, and the amount given as saved is the anchor price
    less that agreed price; a response with state agreed but no agreed price
    fires nothing, though the price form is closed by it.  A reset and the
    start of a session end the condition.  While it holds, the price form is
    disabled and no close of the drawer is intercepted. *)
Theorem celebration_follows_the_agreed_price :
  (forall (res : NegotiationResponse.t) (isStart : bool) (f : Fresh)
          (s : NegotiationStore) (anchor : number),
      SavingsSoundbox.isDeal (_applyResponse res isStart f s)
      = match NegotiationResponse.state res, NegotiationResponse.agreed_price res with
        | agreed, Some _ => true
        | _, _ => false
        end
      /\ SavingsSoundbox.saved anchor (_applyResponse res isStart f s)
         = match NegotiationResponse.state res, NegotiationResponse.agreed_price res with
           | agreed, Some a => (anchor - a)%float
           | _, _ => 0%float
           end
      /\ (NegotiationResponse.state res = agreed ->
          PriceInput.disabled (_applyResponse res isStart f s) = true))
  /\ (forall (s : NegotiationStore) (productId productName : string),
        SavingsSoundbox.isDeal (reset s) = false
        /\ SavingsSoundbox.isDeal (fst (startSession_begin productId productName s)) = false)
  /\ (forall s : NegotiationStore,
        SavingsSoundbox.isDeal s = true ->
        PriceInput.disabled s = true
        /\ (forall nextOpen : bool, NegotiationDrawer.intercepts nextOpen s = false)).
Proof.
  split; [|split].
  - intros res isStart f s anchor.
    unfold SavingsSoundbox.isDeal, SavingsSoundbox.saved, PriceInput.disabled,
      PriceInput.isTerminal.
    cbn [_applyResponse state agreedPrice isLoading].
    repeat split; now destruct (NegotiationResponse.state res).
  - intros s productId productName. split; reflexivity.
  - intros s. unfold SavingsSoundbox.isDeal, PriceInput.disabled, PriceInput.isTerminal,
      NegotiationDrawer.intercepts, NegotiationDrawer.isActive.
    destruct (state s) as [[]|]; try discriminate. intros _.
    split; [apply orb_true_r|]. intros nextOpen. now rewrite andb_false_r.
Qed.

(** ** A language that was never offered *)

(** X16.  What [localStorage] holds under the language key is taken as it
    is.  Any non-empty string stored there, a language code or not, becomes
    the store's language at creation and is the language of the start
    request's body. *)
Theorem stored_language_is_not_validated :
  forall (localStorage : gmap string string) (v productId productName API_BASE : string),
    localStorage !! "mol-bhav-lang" = Some v ->
    v <> "" ->
    language (initial_store (Some localStorage)) = v
    /\ snd (startSession_begin productId productName (initial_store (Some localStorage)))
       = call_startNegotiation productId "" v
    /\ body (init (request_of API_BASE
                     (snd (startSession_begin productId productName
                             (initial_store (Some localStorage))))))
       = Some (JObject [ ("product_id", JString productId); ("buyer_name", JString "");
                         ("language", JString v) ]).
Proof.
  intros localStorage v productId productName API_BASE Hv Hne.
  assert (H : language (initial_store (Some localStorage)) = v).
  { cbn [initial_store language getPersistedLanguage]. rewrite Hv.
    destruct v; [congruence | reflexivity]. }
  split; [exact H|]. cbn [startSession_begin snd language].
  rewrite H. split; reflexivity.
Qed.

Lemma stored_language_is_not_validated_witness :
  let localStorage : gmap string string := {[ "mol-bhav-lang" := "fr" ]} in
  localStorage !! "mol-bhav-lang" = Some "fr"
  /\ language (initial_store (Some localStorage)) = "fr"
  /\ LanguageToggle.Language_of_code "fr" = None.
Proof.
  split; [reflexivity|]. split; [|reflexivity].
  exact (proj1 (stored_language_is_not_validated
                  ({[ "mol-bhav-lang" := "fr" ]} : gmap string string) "fr"
                  "saree-01" "Banarasi Silk Saree" "" eq_refl
                  (fun H => match H in _ = y return match y with
                                                    | EmptyString => False
                                                    | String _ _ => True
                                                    end with eq_refl => I end))).
Defined.

(** ** The gradient of a product page *)

Lemma to_int32_range (x : Z) :
  (- 2147483648 <= ProductDetailPage.to_int32 x < 2147483648)%Z.
Proof.
  unfold ProductDetailPage.to_int32.
  pose proof (Z.mod_pos_bound (x + 2147483648) 4294967296 eq_refl). lia.
Qed.

Lemma to_int32_congruent (x y : Z) :
  ((x - y) mod 4294967296 = 0)%Z ->
  ProductDetailPage.to_int32 x = ProductDetailPage.to_int32 y.
Proof.
  unfold ProductDetailPage.to_int32. intros H.
  apply Z.mod_divide in H; [|discriminate]. destruct H as [k Hk].
  replace (x + 2147483648)%Z with (y + 2147483648 + k * 4294967296)%Z by lia.
  now rewrite Z.mod_add by discriminate.
Qed.

Lemma to_int32_of_range (x : Z) :
  (- 2147483648 <= x < 2147483648)%Z -> ProductDetailPage.to_int32 x = x.
Proof.
  intros H. unfold ProductDetailPage.to_int32. rewrite Z.mod_small; lia.
Qed.

Lemma to_int32_residue (x : Z) :
  ((ProductDetailPage.to_int32 x - x) mod 4294967296 = 0)%Z.
Proof.
  unfold ProductDetailPage.to_int32.
  pose proof (Z.mod_eq (x + 2147483648) 4294967296) as H. rewrite H by discriminate.
  replace (x + 2147483648 - 4294967296 * ((x + 2147483648) / 4294967296)
           - 2147483648 - x)%Z
    with (- ((x + 2147483648) / 4294967296) * 4294967296)%Z by lia.
  apply Z.mod_mul. discriminate.
Qed.

Lemma hash_step_range (h c : Z) :
  (- 2147483648
   <= ProductDetailPage.to_int32 (ProductDetailPage.Math_imul 31 h + c)
   < 2147483648)%Z.
Proof. apply to_int32_range. Qed.

Lemma hash_units_from_range (units : list Z) :
  forall h : Z,
    (- 2147483648 <= h < 2147483648)%Z ->
    (- 2147483648
     <= fold_left (fun h c => ProductDetailPage.to_int32
                                (ProductDetailPage.Math_imul 31 h + c)) units h
     < 2147483648)%Z.
Proof.
  induction units as [|c rest IH]; intros h Hh; [exact Hh|].
  cbn [fold_left]. apply IH, hash_step_range.
Qed.

(** X17.  [hashCode] of any string is a whole number from 0 to 2^31, and the
    gradient index taken from it is one of 0 to 4 for every product id: the
    look-up in [GRADIENTS] always finds a gradient. *)
Theorem gradient_is_always_found :
  (forall s : string, (0 <= ProductDetailPage.hashCode s <= 2147483648)%Z)
  /\ (forall product : Product.t,
        (0 <= ProductDetailPage.gradientIndex product < 5)%Z
        /\ exists g, ProductDetailPage.gradient product = Some g
                     /\ In g ProductDetailPage.GRADIENTS).
Proof.
  assert (Hhash : forall s : string, (0 <= ProductDetailPage.hashCode s <= 2147483648)%Z).
  { intros s. unfold ProductDetailPage.hashCode, ProductDetailPage.hash_units.
    pose proof (hash_units_from_range (ProductDetailPage.code_units s) 0%Z) as H. lia. }
  split; [exact Hhash|]. intros product.
  assert (Hidx : (0 <= ProductDetailPage.gradientIndex product < 5)%Z).
  { unfold ProductDetailPage.gradientIndex. apply Z.rem_bound_pos; [apply Hhash | reflexivity]. }
  split; [exact Hidx|]. unfold ProductDetailPage.gradient.
  assert (Hcases : ProductDetailPage.gradientIndex product = 0%Z
                   \/ ProductDetailPage.gradientIndex product = 1%Z
                   \/ ProductDetailPage.gradientIndex product = 2%Z
                   \/ ProductDetailPage.gradientIndex product = 3%Z
                   \/ ProductDetailPage.gradientIndex product = 4%Z) by lia.
  destruct Hcases as [-> | [-> | [-> | [-> | ->]]]]; eexists; (split; [reflexivity|]);
    cbn; tauto.
Qed.

Lemma hash_units_from_polynomial (units : list Z) :
  forall h p : Z,
    (- 2147483648 <= h < 2147483648)%Z ->
    ((h - p) mod 4294967296 = 0)%Z ->
    fold_left (fun h c => ProductDetailPage.to_int32
                            (ProductDetailPage.Math_imul 31 h + c)) units h
    = ProductDetailPage.to_int32 (fold_left (fun h c => 31 * h + c)%Z units p).
Proof.
  induction units as [|c rest IH]; intros h p Hh Hhp.
  - cbn [fold_left]. rewrite <- (to_int32_of_range h Hh). now apply to_int32_congruent.
  - cbn [fold_left]. apply IH; [apply hash_step_range|].
    unfold ProductDetailPage.Math_imul.
    pose proof (to_int32_residue (ProductDetailPage.to_int32 (31 * h) + c)) as H1.
    pose proof (to_int32_residue (31 * h)) as H2.
    apply Z.mod_divide in H1, H2, Hhp; try discriminate.
    destruct H1 as [k1 H1], H2 as [k2 H2], Hhp as [k3 H3].
    apply Z.mod_divide; [discriminate|]. exists (k1 + k2 + 31 * k3)%Z. lia.
Qed.

(** X18.  The wrap-arounds inside [hashCode] do not add up to anything but
    one wrap at the end: the hash is the absolute value of the 32-bit wrap
    of the polynomial [c0 * 31^(n-1) + ... + c(n-1)] over the string's code
    units.  When that polynomial is below 2^31, as for short ids, the hash
    is the polynomial itself. *)
Theorem hashCode_is_the_wrapped_polynomial :
  forall s : string,
    let polynomial := fold_left (fun h c => 31 * h + c)%Z (ProductDetailPage.code_units s) 0%Z in
    ProductDetailPage.hashCode s = Z.abs (ProductDetailPage.to_int32 polynomial)
    /\ ((0 <= polynomial < 2147483648)%Z -> ProductDetailPage.hashCode s = polynomial).
Proof.
  intros s polynomial.
  assert (H : ProductDetailPage.hashCode s = Z.abs (ProductDetailPage.to_int32 polynomial)).
  { unfold ProductDetailPage.hashCode, ProductDetailPage.hash_units. f_equal.
    apply hash_units_from_polynomial; [lia | reflexivity]. }
  split; [exact H|]. intros Hsmall. rewrite H, to_int32_of_range by lia. lia.
Qed.

(** ** Requests *)

Lemma hex_digits_unreserved (c : ascii) :
  uri_unreserved (hex_digit (nat_of_ascii c / 16)) = true
  /\ uri_unreserved (hex_digit (nat_of_ascii c mod 16)) = true.
Proof.
  destruct c as [[] [] [] [] [] [] [] []]; split; vm_compute; reflexivity.
Qed.

Lemma encodeURIComponent_chars (s : string) (c : ascii) :
  In c (list_ascii_of_string (encodeURIComponent s)) ->
  uri_unreserved c = true \/ c = "%"%char.
Proof.
  induction s as [|a r IH]; cbn [encodeURIComponent]; [intros []|].
  destruct (uri_unreserved a) eqn:Ea; cbn [list_ascii_of_string In].
  - intros [<- | H]; [now left | now apply IH].
  - destruct (hex_digits_unreserved a) as [H1 H2].
    intros [<- | [<- | [<- | H]]]; [now right | now left | now left | now apply IH].
Qed.

Lemma encodeURIComponent_unreserved (s : string) :
  Forall (fun c => uri_unreserved c = true) (list_ascii_of_string s) ->
  encodeURIComponent s = s.
Proof.
  induction s as [|a r IH]; cbn [list_ascii_of_string encodeURIComponent]; trivial.
  intros H. inversion H as [|? ? Ha Hr]; subst. rewrite Ha. f_equal. now apply IH.
Qed.

(** X19.  How an id enters a request's URL.  The URL of an offer, of a
    status request and of a product request is the API base, a fixed path,
    the encoded id and (for the first two) a fixed ending.  Every character
    of the encoded id is a letter, a digit, one of [- _ . ! ~ * ' ( )] or a
    percent sign, so the id adds no slash, question mark, hash or ampersand
    to the URL string; a slash in an id is sent as [%2F].  An id made of
    unreserved characters only is sent as it is, and the dot is one of them:
    the ids [.] and [..] reach the URL string unchanged, as dot segments. *)
Theorem encoded_ids_hold_no_separators :
  (forall (API_BASE i t : string) (p : number) (m l : string),
      url (api.sendOffer API_BASE i t p m l)
      = (API_BASE ++ "/api/v1/negotiate/" ++ encodeURIComponent i ++ "/offer")%string)
  /\ (forall API_BASE i t : string,
        url (api.getStatus API_BASE i t)
        = (API_BASE ++ "/api/v1/negotiate/" ++ encodeURIComponent i ++ "/status")%string)
  /\ (forall API_BASE id : string,
        url (fetchProduct API_BASE id)
        = (API_BASE ++ "/api/v1/products/" ++ encodeURIComponent id)%string)
  /\ (forall (id : string) (c : ascii),
        In c (list_ascii_of_string (encodeURIComponent id)) ->
        (uri_unreserved c = true \/ c = "%"%char)
        /\ c <> "/"%char /\ c <> "?"%char /\ c <> "#"%char /\ c <> "&"%char)
  /\ (forall id : string,
        Forall (fun c => uri_unreserved c = true) (list_ascii_of_string id) ->
        encodeURIComponent id = id)
  /\ encodeURIComponent "a/b?c#d&e" = "a%2Fb%3Fc%23d%26e"
  /\ encodeURIComponent "." = "."
  /\ encodeURIComponent ".." = ".."
  /\ (forall API_BASE t : string,
        url (api.getStatus API_BASE ".." t)
        = (API_BASE ++ "/api/v1/negotiate/../status")%string
        /\ url (fetchProduct API_BASE "..")
           = (API_BASE ++ "/api/v1/products/..")%string).
Proof.
  split; [reflexivity|]. split; [reflexivity|]. split; [reflexivity|]. split; [|split].
  - intros id c Hc. pose proof (encodeURIComponent_chars id c Hc) as H.
    split; [exact H|].
    repeat split; intros ->; destruct H as [H | H]; discriminate.
  - apply encodeURIComponent_unreserved.
  - repeat split.
Qed.

(** X20.  What [apiFetch] puts on the wire.  Every header the caller gives
    is sent with the value given; Content-Type is sent too, as
    application/json unless the caller gave another; no other header is
    added.  Method and body are the caller's; the product requests have
    neither, the start and offer requests are POSTs with a body. *)
Theorem apiFetch_headers :
  (forall (API_BASE path : string) (options : RequestInit) (k : string),
      headers (init (api.apiFetch API_BASE path options)) !! k
      = match headers options !! k with
        | Some v => Some v
        | None => if String.eqb k "Content-Type" then Some "application/json" else None
        end)
  /\ (forall (API_BASE path : string) (options : RequestInit),
        method (init (api.apiFetch API_BASE path options)) = method options
        /\ body (init (api.apiFetch API_BASE path options)) = body options
        /\ url (api.apiFetch API_BASE path options) = (API_BASE ++ path)%string)
  /\ (forall API_BASE id : string,
        method (init (fetchProduct API_BASE id)) = None
        /\ body (init (fetchProduct API_BASE id)) = None
        /\ method (init (fetchProducts API_BASE)) = None
        /\ body (init (fetchProducts API_BASE)) = None
        /\ url (fetchProducts API_BASE) = (API_BASE ++ "/api/v1/products")%string)
  /\ (forall (API_BASE : string) (c : ApiCall),
        method (init (request_of API_BASE c)) = Some "POST"
        /\ headers (init (request_of API_BASE c)) !! "Content-Type"
           = Some "application/json"
        /\ exists fields, body (init (request_of API_BASE c)) = Some (JObject fields)).
Proof.
  split; [|split; [|split]].
  - intros API_BASE path options k. unfold api.apiFetch. cbn [init headers].
    rewrite lookup_union. destruct (headers options !! k) as [v|] eqn:E.
    + now destruct (({[ "Content-Type" := "application/json" ]} : gmap string string) !! k).
    + destruct (String.eqb_spec k "Content-Type") as [-> | Hne].
      * now rewrite lookup_singleton_eq.
      * rewrite lookup_singleton_ne by congruence. reflexivity.
  - intros. repeat split.
  - intros. repeat split.
  - intros API_BASE c. destruct c; cbn [request_of]; (split; [reflexivity|]); split;
      solve [reflexivity | eexists; reflexivity].
Qed.

(** ** The zones of the fairness meter *)

Lemma SFcompare_lt_trans (x y z : spec_float) :
  SFcompare x y = Some Lt -> SFcompare y z = Some Lt -> SFcompare x z = Some Lt.
Proof.
  destruct x as [sx|sx| |sx mx ex], y as [sy|sy| |sy my ey], z as [sz|sz| |sz mz ez];
    simpl; try discriminate;
    try (destruct sx; try discriminate; destruct sy; try discriminate;
         destruct sz; try discriminate; reflexivity);
    try (destruct sx; try discriminate; destruct sz; try discriminate; reflexivity);
    try (destruct sx; try discriminate; destruct sy; try discriminate; reflexivity);
    try (destruct sy; try discriminate; destruct sz; try discriminate; reflexivity).
  all: destruct sx, sy, sz; try discriminate; try reflexivity.
  all: destruct (Z.compare_spec ex ey), (Z.compare_spec ey ez), (Z.compare_spec ex ez);
    try discriminate; try reflexivity; try lia; subst.
  all: destruct (Pos_compare_cont_spec mx my), (Pos_compare_cont_spec my mz),
         (Pos_compare_cont_spec mx mz);
    simpl; try discriminate; try reflexivity; try lia.
Qed.

Lemma ltb_trans (x y z : number) :
  (x <? y)%float = true -> (y <? z)%float = true -> (x <? z)%float = true.
Proof.
  rewrite !ltb_spec. unfold SFltb. intros Hxy Hyz.
  destruct (SFcompare (Prim2SF x) (Prim2SF y)) as [[]|] eqn:E1; try discriminate.
  destruct (SFcompare (Prim2SF y) (Prim2SF z)) as [[]|] eqn:E2; try discriminate.
  now rewrite (SFcompare_lt_trans _ _ _ E1 E2).
Qed.

Lemma nan_compares_false (x y : number) :
  PrimFloat.is_nan x = true ->
  (x <? y)%float = false /\ (y <? x)%float = false
  /\ (x <=? y)%float = false /\ (y <=? x)%float = false.
Proof.
  intros H. apply is_nan_true_spec in H.
  rewrite !ltb_spec, !leb_spec. unfold SFltb, SFleb. rewrite H.
  repeat split; trivial; now destruct (Prim2SF y).
Qed.

Lemma leb_is_not_gt (x y : number) :
  PrimFloat.is_nan x = false -> PrimFloat.is_nan y = false ->
  (x <=? y)%float = negb (y <? x)%float.
Proof.
  intros Hx Hy. destruct (y <? x)%float eqn:E.
  - apply is_nan_false_spec in Hx, Hy. revert E.
    rewrite ltb_spec, leb_spec. unfold SFltb, SFleb.
    rewrite (SFcompare_swap (Prim2SF y) (Prim2SF x)).
    destruct (SFcompare (Prim2SF y) (Prim2SF x)) as [[]|]; simpl; congruence.
  - now apply ltb_false_leb.
Qed.

(** X21.  The four zones tile the meter from 0 up to, not including, 100.
    A percentage that is at least 0 and below 100 lies in exactly one zone;
    a percentage below 0, of 100 or more, or NaN lies in none, and the label
    then falls back to the first zone.  No percentage lies in two zones. *)
Theorem zones_tile_the_meter :
  forall pct : number,
    List.filter (FairnessMeter.in_zone pct) FairnessMeter.ZONES
    = match find (FairnessMeter.in_zone pct) FairnessMeter.ZONES with
      | Some z => [z]
      | None => []
      end
    /\ (is_Some (find (FairnessMeter.in_zone pct) FairnessMeter.ZONES)
        <-> (0 <=? pct)%float = true /\ (pct <? 100)%float = true).
Proof.
  intros pct. unfold FairnessMeter.in_zone, FairnessMeter.ZONES.
  cbn [List.filter find FairnessMeter.from FairnessMeter.to].
  destruct (PrimFloat.is_nan pct) eqn:Hnan.
  - destruct (nan_compares_false pct 0 Hnan) as [_ [_ [_ H0]]].
    destruct (nan_compares_false pct 25 Hnan) as [_ [_ [_ H25]]].
    destruct (nan_compares_false pct 55 Hnan) as [_ [_ [_ H55]]].
    destruct (nan_compares_false pct 85 Hnan) as [_ [_ [_ H85]]].
    rewrite H0, H25, H55, H85. cbn [andb]. split; trivial.
    split; [intros [z Hz]; discriminate | intros [H _]; discriminate].
  - rewrite (leb_is_not_gt 0 pct), (leb_is_not_gt 25 pct), (leb_is_not_gt 55 pct),
      (leb_is_not_gt 85 pct) by (trivial; reflexivity).
    pose proof (fun H => ltb_trans pct 0 25 H eq_refl) as T0.
    pose proof (fun H => ltb_trans pct 25 55 H eq_refl) as T25.
    pose proof (fun H => ltb_trans pct 55 85 H eq_refl) as T55.
    pose proof (fun H => ltb_trans pct 85 100 H eq_refl) as T85.
    destruct (pct <? 0)%float; [specialize (T0 eq_refl)|];
      (destruct (pct <? 25)%float; [specialize (T25 eq_refl)|]);
      (destruct (pct <? 55)%float; [specialize (T55 eq_refl)|]);
      (destruct (pct <? 85)%float; [specialize (T85 eq_refl)|]);
      destruct (pct <? 100)%float; try discriminate; cbn [negb andb];
      (split; [reflexivity|]);
      (split; [intros [z Hz]; try discriminate; split; reflexivity
              | intros [H1 H2]; try discriminate; eexists; reflexivity]).
Qed.

(** ** The walk-away price of a whole-rupee counter-offer *)

Lemma all_from_holds (k : nat) :
  forall (n : Z) (P : Z -> bool) (i : Z),
    all_from k n P = true -> (n <= i < n + Z.of_nat k)%Z -> P i = true.
Proof.
  induction k as [|k IH]; intros n P i Hall Hi; [lia|].
  cbn [all_from] in Hall. apply andb_true_iff in Hall as [Hn Hrest].
  destruct (Z.eq_dec i n) as [-> | Hne]; trivial.
  apply (IH (n + 1)%Z); trivial. lia.
Qed.

Set Warnings "-abstract-large-number".

(** X22.  For a current price that is a whole number of rupees from 0 to
    20000, the walk-away price is the whole number nearest to 95% of it,
    a half counting upwards: [(19 n + 10) / 20], rounded down.  Binary
    rounding of 0.95 and of the product never shifts the result.  So up to
    10 rupees the walk-away price is the current price itself, and above
    that it is lower. *)
Theorem walk_away_price_of_whole_rupees :
  forall (s : NegotiationStore) (n : Z),
    (0 <= n <= 20000)%Z ->
    currentPrice s = number_of_Z n ->
    DigitalFlounce.walkAwayPrice s = number_of_Z ((19 * n + 10) / 20)
    /\ ((n <= 10)%Z -> DigitalFlounce.walkAwayPrice s = currentPrice s)
    /\ ((10 < n)%Z ->
        (DigitalFlounce.walkAwayPrice s <? currentPrice s)%float = true
        /\ ((19 * n + 10) / 20 < n)%Z).
Proof.
  intros s n Hn Hs.
  assert (Hall : all_from 20001 0 walk_away_is_nearest = true) by (vm_compute; reflexivity).
  assert (Hk : Z.of_nat 20001 = 20001%Z) by (vm_compute; reflexivity).
  assert (H : walk_away_is_nearest n = true).
  { apply (all_from_holds 20001 0 walk_away_is_nearest n Hall). rewrite Hk. lia. }
  unfold walk_away_is_nearest in H. cbv zeta in H. apply andb_true_iff in H as [H Hlow].
  apply FloatAxioms.Leibniz.eqb_spec in H.
  unfold DigitalFlounce.walkAwayPrice. rewrite Hs.
  split; [exact H|]. split.
  - intros Hsmall. rewrite H. f_equal. apply Z.eqb_eq.
    apply (all_from_holds 11 0 (fun k => ((19 * k + 10) / 20 =? k)%Z) n eq_refl). lia.
  - intros Hbig. split; [|apply Z.div_lt_upper_bound; lia].
    apply orb_true_iff in Hlow as [Hlow | Hlow]; [|exact Hlow].
    apply Z.leb_le in Hlow. lia.
Qed.

Lemma walk_away_price_of_whole_rupees_witness :
  (0 <= 12999 <= 20000)%Z
  /\ currentPrice demo_store = number_of_Z 12999
  /\ DigitalFlounce.walkAwayPrice demo_store = number_of_Z ((19 * 12999 + 10) / 20).
Proof.
  split; [lia|]. split; [reflexivity|].
  exact (proj1 (walk_away_price_of_whole_rupees demo_store 12999
                  (conj (Zle_bool_imp_le 0 12999 eq_refl)
                        (Zle_bool_imp_le 12999 20000 eq_refl))
                  eq_refl)).
Defined.

(** ** The guard of the price form *)

(** X23.  The guard of [handleSubmit] lets through exactly the parsed prices
    that are greater than zero.  Every other price (NaN, zero of either
    sign, anything below zero) is answered with the toast "Enter a valid
    price" and nothing else happens: form and store are unchanged and no
    request is made.  An empty price field does not even get that far, for
    its submit button is disabled. *)
Theorem submit_guard_admits_exactly_positive_prices :
  forall (l : PriceInput.Local) (s : NegotiationStore)
         (reply : Settled NegotiationResponse.t) (f f' : Fresh),
    let price := parseFloat (remove_commas (PriceInput.priceStr l)) in
    isNaN price || (price <=? 0)%float = negb (0 <? price)%float
    /\ ((0 <? price)%float = false ->
        PriceInput.handleSubmit reply f f' l s = (l, s, [ToastError "Enter a valid price"]))
    /\ ((0 <? price)%float = true ->
        PriceInput.handleSubmit reply f f' l s
        = (let '(s1, calls, c) := sendOffer price (trim (PriceInput.message l)) reply f f' s in
           match c with
           | Returned =>
               ({| PriceInput.priceStr := ""; PriceInput.message := "";
                   PriceInput.showMessage := false |}, s1, map ApiRequest calls)
           | Threw err =>
               (l, s1, map ApiRequest calls ++ [ToastError (PriceInput.catch_toast err)])
           end))
    /\ (PriceInput.priceStr l = "" ->
        PriceInput.dispatch PriceInput.Submit reply f f' l s = (l, s, [])).
Proof.
  intros l s reply f f' price.
  assert (Hguard : isNaN price || (price <=? 0)%float = negb (0 <? price)%float).
  { unfold isNaN. destruct (PrimFloat.is_nan price) eqn:Hnan.
    - destruct (nan_compares_false price 0 Hnan) as [_ [-> _]]. reflexivity.
    - cbn [orb]. apply leb_is_not_gt; trivial. }
  split; [exact Hguard|]. unfold PriceInput.handleSubmit. fold price. rewrite Hguard.
  split; [intros ->; reflexivity|]. split; [intros ->; reflexivity|].
  intros Hempty. unfold PriceInput.dispatch.
  cbn [PriceInput.render PriceInput.submit_button]. rewrite Hempty. cbn [truthy_string negb].
  now rewrite orb_true_r.
Qed.
